(** * Verification of scripts/ceo_brief.js (daily CEO brief generator)

    The script reads [ops/priorities.md], extracts a few [## ] sections with
    regular expressions, renders [ops/briefs/YYYY-MM-DD.md] and posts a
    condensed summary to Telegram.

    The embedding is shallow.  JavaScript strings are lists of UTF-16 code
    units; the regular expressions of the script run on a small backtracking
    matcher that follows the ECMAScript semantics of the constructs the
    script uses; [Date] arithmetic follows the ECMAScript day and year
    functions; the file system, the environment, the clock and the Telegram
    endpoint are fields of an explicit world that the run threads through a
    state-and-exception monad, recording each effect in a trace. *)

From Stdlib Require Import ZArith NArith List String Ascii Bool Lia.
From stdpp Require Import base option list gmap strings.

Set Default Proof Using "Type".

(* ===================================================================== *)
(** * JavaScript strings *)
(* ===================================================================== *)

Module JsString.

(** A UTF-16 code unit. *)
Abbreviation char := N (only parsing).

(** A JavaScript string value: a list of code units. *)
Abbreviation str := (list N) (only parsing).

(** An ASCII literal of the source as a JavaScript string. *)
Definition lit (s : string) : str :=
  map N_of_ascii (list_ascii_of_string s).

(** U+2014 EM DASH, the one non-ASCII character of the source. *)
Definition emdash : str := [8212%N].

Definition nl : str := [10%N].

(** ECMAScript LineTerminator: LF, CR, LS, PS. *)
Definition isLineTerminator (c : char) : bool :=
  (c =? 10)%N || (c =? 13)%N || (c =? 8232)%N || (c =? 8233)%N.

(** ECMAScript WhiteSpace: TAB, VT, FF, ZWNBSP and the Unicode category Zs. *)
Definition isWhiteSpace (c : char) : bool :=
  (c =? 9)%N || (c =? 11)%N || (c =? 12)%N || (c =? 32)%N || (c =? 160)%N
  || (c =? 5760)%N || ((8192 <=? c)%N && (c <=? 8202)%N)
  || (c =? 8239)%N || (c =? 8287)%N || (c =? 12288)%N || (c =? 65279)%N.

(** The characters matched by [\s] and stripped by [String.prototype.trim]:
    WhiteSpace and LineTerminator. *)
Definition isSpace (c : char) : bool := isWhiteSpace c || isLineTerminator c.

Definition isDigit (c : char) : bool := (48 <=? c)%N && (c <=? 57)%N.

Fixpoint trimStart (s : str) : str :=
  match s with
  | c :: s' => if isSpace c then trimStart s' else s
  | [] => []
  end.

Definition trimEnd (s : str) : str := rev (trimStart (rev s)).

(** [String.prototype.trim]. *)
Definition trim (s : str) : str := trimEnd (trimStart s).

(** [s.split(sep)] for a separator of one code unit: never empty, the
    empty string gives one empty piece. *)
Fixpoint split (sep : char) (s : str) : list str :=
  match s with
  | [] => [[]]
  | c :: s' =>
      if (c =? sep)%N then [] :: split sep s'
      else match split sep s' with
           | piece :: pieces => (c :: piece) :: pieces
           | [] => [[c]]
           end
  end.

(** [a.join(sep)]. *)
Fixpoint join (sep : str) (pieces : list str) : str :=
  match pieces with
  | [] => []
  | [p] => p
  | p :: ps => p ++ sep ++ join sep ps
  end.

(** [s.slice(i)] and [s.slice(0, j)] for non-negative indices. *)
Definition sliceFrom {A} (i : nat) (s : list A) : list A := drop i s.
Definition sliceTo {A} (j : nat) (s : list A) : list A := take j s.

Fixpoint startsWith (p s : str) : bool :=
  match p, s with
  | [], _ => true
  | a :: p', b :: s' => (a =? b)%N && startsWith p' s'
  | _ :: _, [] => false
  end.

Definition endsWith (suffix s : str) : bool := startsWith (rev suffix) (rev s).

(** [s.replace(pat, by)] with a string pattern: the first occurrence only. *)
Fixpoint replace (pat by_ s : str) : str :=
  if startsWith pat s then by_ ++ drop (length pat) s
  else match s with
       | c :: s' => c :: replace pat by_ s'
       | [] => []
       end.

(** [a < b] on strings: lexicographic on code units. *)
Fixpoint ltb (a b : str) : bool :=
  match a, b with
  | _, [] => false
  | [], _ :: _ => true
  | x :: a', y :: b' => (x <? y)%N || ((x =? y)%N && ltb a' b')
  end.

(** Truthiness of a string: the empty string is falsy. *)
Definition truthy (s : str) : bool :=
  match s with [] => false | _ :: _ => true end.

(** [a || b] on strings. *)
Definition orElse (a b : str) : str := if truthy a then a else b.

Fixpoint eqb (a b : str) : bool :=
  match a, b with
  | [], [] => true
  | x :: a', y :: b' => (x =? y)%N && eqb a' b'
  | _, _ => false
  end.

End JsString.

(* ===================================================================== *)
(** * Regular expressions *)
(* ===================================================================== *)

Module Regex.
Import JsString.

(** The sets of characters an atom of the script's patterns can match. *)
Inductive cset :=
| CChar (c : char)    (** a literal character *)
| CSpace              (** [\s] *)
| CDigit.             (** [\d] *)

Definition cset_mem (k : cset) (c : char) : bool :=
  match k with
  | CChar a => (a =? c)%N
  | CSpace => isSpace c
  | CDigit => isDigit c
  end.

(** The terms of a pattern: assertions, an atom, an atom under a greedy
    quantifier. *)
Inductive node :=
| Bol                        (** [^] *)
| Eol                        (** [$] *)
| One (k : cset)
| Star (k : cset)            (** [k*] *)
| Plus (k : cset)            (** [k+] *)
| Rep (n : nat) (k : cset).  (** [k{n}] *)

Definition pattern := list node.

Record regexp := RegExp { source : pattern; multiline : bool }.

(** [^]: at the start of the input, or with the [m] flag after a line
    terminator. [prev] is the character before the current position. *)
Definition atLineStart (m : bool) (prev : option char) : bool :=
  match prev with
  | None => true
  | Some c => m && isLineTerminator c
  end.

(** [$]: at the end of the input, or with the [m] flag before a line
    terminator. *)
Definition atLineEnd (m : bool) (s : str) : bool :=
  match s with
  | [] => true
  | c :: _ => m && isLineTerminator c
  end.

(** A greedy loop over [k]: the longest run first, one character given
    back at each failure of the continuation. *)
Fixpoint greedy (k : cset) (cont : option char -> str -> option str)
    (prev : option char) (s : str) : option str :=
  match s with
  | c :: s' =>
      if cset_mem k c then
        match greedy k cont (Some c) s' with
        | Some r => Some r
        | None => cont prev s
        end
      else cont prev s
  | [] => cont prev s
  end.

Fixpoint exactly (n : nat) (k : cset) (cont : option char -> str -> option str)
    (prev : option char) (s : str) : option str :=
  match n with
  | O => cont prev s
  | S n' =>
      match s with
      | c :: s' => if cset_mem k c then exactly n' k cont (Some c) s' else None
      | [] => None
      end
  end.

(** The backtracking matcher at one position: the input left after the
    match, or [None]. *)
Fixpoint matchFrom (m : bool) (p : pattern) (prev : option char) (s : str)
    : option str :=
  match p with
  | [] => Some s
  | Bol :: p' => if atLineStart m prev then matchFrom m p' prev s else None
  | Eol :: p' => if atLineEnd m s then matchFrom m p' prev s else None
  | One k :: p' =>
      match s with
      | c :: s' => if cset_mem k c then matchFrom m p' (Some c) s' else None
      | [] => None
      end
  | Star k :: p' => greedy k (matchFrom m p') prev s
  | Plus k :: p' =>
      match s with
      | c :: s' =>
          if cset_mem k c then greedy k (matchFrom m p') (Some c) s' else None
      | [] => None
      end
  | Rep n k :: p' => exactly n k (matchFrom m p') prev s
  end.

(** The result of a successful match: [m.index] and the length of [m[0]]. *)
Record matched := Matched { index : nat; matchLength : nat }.

(** The positions are tried from left to right, the end of the input
    included. *)
Fixpoint scan (m : bool) (p : pattern) (prev : option char) (s : str) (i : nat)
    : option matched :=
  match matchFrom m p prev s with
  | Some r => Some (Matched i (length s - length r))
  | None =>
      match s with
      | c :: s' => scan m p (Some c) s' (S i)
      | [] => None
      end
  end.

(** [s.match(re)] for a regular expression without the [g] flag. *)
Definition exec (re : regexp) (s : str) : option matched :=
  scan (multiline re) (source re) None s 0.

(** [s.search(re)]: the index of the first match ([None] for [-1]). *)
Definition search (re : regexp) (s : str) : option nat :=
  index <$> exec re s.

(** [re.test(s)]. *)
Definition test (re : regexp) (s : str) : bool :=
  match exec re s with Some _ => true | None => false end.

(** ECMAScript SyntaxCharacter. *)
Definition syntaxChars : str := Eval vm_compute in lit "^$\.*+?()[]{}|".

Definition isSyntaxChar (c : char) : bool := existsb (N.eqb c) syntaxChars.

(** The set an escape [\e] stands for, in the fragment the script builds:
    the two class escapes and the identity escape of a syntax character. *)
Definition escapeSet (e : char) : option cset :=
  if (e =? 115)%N then Some CSpace
  else if (e =? 100)%N then Some CDigit
  else if isSyntaxChar e then Some (CChar e)
  else None.

(** The quantifier that follows an atom, if any. *)
Definition quantified (k : cset) (s : str) : node * str :=
  match s with
  | c :: s' =>
      if (c =? 43)%N then (Plus k, s')
      else if (c =? 42)%N then (Star k, s')
      else (One k, s)
  | [] => (One k, s)
  end.

(** The pattern parser of [new RegExp(src)], on that fragment.  [fuel]
    bounds the number of terms; [None] is a [SyntaxError] or a construct
    outside the fragment (groups, classes, alternation, lazy quantifiers). *)
Fixpoint parseFuel (fuel : nat) (src : str) : option pattern :=
  match fuel with
  | O => None
  | S fuel' =>
      match src with
      | [] => Some []
      | c :: s1 =>
          if (c =? 94)%N then cons Bol <$> parseFuel fuel' s1
          else if (c =? 36)%N then cons Eol <$> parseFuel fuel' s1
          else if (c =? 92)%N then
            match s1 with
            | e :: s2 =>
                match escapeSet e with
                | Some k =>
                    let '(t, s3) := quantified k s2 in
                    cons t <$> parseFuel fuel' s3
                | None => None
                end
            | [] => None
            end
          else if isSyntaxChar c then None
          else
            let '(t, s3) := quantified (CChar c) s1 in
            cons t <$> parseFuel fuel' s3
      end
  end.

(** Each term consumes at least one character, so the length of the
    source is fuel enough. *)
Definition parse (src : str) : option pattern :=
  parseFuel (S (length src)) src.

(** [new RegExp(src, "m")]; [None] when the constructor throws. *)
Definition newRegExp_m (src : str) : option regexp :=
  (fun p => RegExp p true) <$> parse src.

End Regex.


(* ===================================================================== *)
(** * Dates *)
(* ===================================================================== *)

Module JsDate.
Import JsString.
Local Open Scope Z_scope.

(** The day and year functions of ECMAScript (Day Number and Time within
    Day, Year Number, Month Number, Date Number), on time values in
    milliseconds since the epoch. *)

Definition msPerDay : Z := 86400000.

Definition Day (t : Z) : Z := t / msPerDay.
Definition TimeWithinDay (t : Z) : Z := t mod msPerDay.

Definition DaysInYear (y : Z) : Z :=
  if negb (y mod 4 =? 0) then 365
  else if negb (y mod 100 =? 0) then 366
  else if negb (y mod 400 =? 0) then 365
  else 366.

Definition DayFromYear (y : Z) : Z :=
  365 * (y - 1970) + (y - 1969) / 4 - (y - 1901) / 100 + (y - 1601) / 400.

(** The year of a day number: the largest [y] with [DayFromYear y <= d].
    The mean-year estimate is off by one at most and is then adjusted. *)
Definition YearFromDay (d : Z) : Z :=
  let y := 1970 + (400 * d) / 146097 in
  if d <? DayFromYear y then y - 1
  else if DayFromYear (y + 1) <=? d then y + 1
  else y.

Definition YearFromTime (t : Z) : Z := YearFromDay (Day t).

Definition InLeapYear (t : Z) : Z :=
  if DaysInYear (YearFromTime t) =? 366 then 1 else 0.

Definition DayWithinYear (t : Z) : Z := Day t - DayFromYear (YearFromTime t).

(** Month number, January is 0. *)
Definition MonthFromTime (t : Z) : Z :=
  let d := DayWithinYear t in
  let l := InLeapYear t in
  if d <? 31 then 0
  else if d <? 59 + l then 1
  else if d <? 90 + l then 2
  else if d <? 120 + l then 3
  else if d <? 151 + l then 4
  else if d <? 181 + l then 5
  else if d <? 212 + l then 6
  else if d <? 243 + l then 7
  else if d <? 273 + l then 8
  else if d <? 304 + l then 9
  else if d <? 334 + l then 10
  else 11.

(** Day of the month, from 1. *)
Definition DateFromTime (t : Z) : Z :=
  let d := DayWithinYear t in
  let l := InLeapYear t in
  match MonthFromTime t with
  | 0 => d + 1
  | 1 => d - 30
  | 2 => d - 58 - l
  | 3 => d - 89 - l
  | 4 => d - 119 - l
  | 5 => d - 150 - l
  | 6 => d - 180 - l
  | 7 => d - 211 - l
  | 8 => d - 242 - l
  | 9 => d - 272 - l
  | 10 => d - 303 - l
  | _ => d - 333 - l
  end.

Definition HourFromTime (t : Z) : Z := (t / 3600000) mod 24.
Definition MinFromTime (t : Z) : Z := (t / 60000) mod 60.
Definition SecFromTime (t : Z) : Z := (t / 1000) mod 60.
Definition msFromTime (t : Z) : Z := t mod 1000.

(** The decimal digit of [n] at position [i] (units are position 0). *)
Definition digitAt (n : Z) (i : nat) : char :=
  (48 + Z.to_N ((n / 10 ^ Z.of_nat i) mod 10))%N.

(** [n] in decimal, padded with zeros to [width] digits. *)
Fixpoint padded (width : nat) (n : Z) : str :=
  match width with
  | O => []
  | S w => digitAt n w :: padded w n
  end.

(** The year of an ISO string: four digits from 0 to 9999, otherwise a
    sign and six digits. *)
Definition isoYear (y : Z) : str :=
  if (0 <=? y) && (y <=? 9999) then padded 4 y
  else (if y <? 0 then lit "-" else lit "+") ++ padded 6 (Z.abs y).

(** A [Date] object holds a time value, or NaN for an invalid date. *)
Definition date := option Z.

(** TimeClip, as [new Date(value)] applies it. *)
Definition newDate (tv : Z) : date :=
  if Z.abs tv <=? 8640000000000000 then Some tv else None.

(** [d.toISOString()]; [None] is the RangeError of an invalid date. *)
Definition toISOString (d : date) : option str :=
  match d with
  | None => None
  | Some t =>
      Some (isoYear (YearFromTime t) ++ lit "-"
            ++ padded 2 (MonthFromTime t + 1) ++ lit "-"
            ++ padded 2 (DateFromTime t) ++ lit "T"
            ++ padded 2 (HourFromTime t) ++ lit ":"
            ++ padded 2 (MinFromTime t) ++ lit ":"
            ++ padded 2 (SecFromTime t) ++ lit "."
            ++ padded 3 (msFromTime t) ++ lit "Z")
  end.

End JsDate.


(* ===================================================================== *)
(** * The world of a run *)
(* ===================================================================== *)

Module Node.
Import JsString.

(** What the Telegram endpoint does with a request: [fetch] rejects; the
    body is not a JSON object whose [ok] can be read; or the body is JSON
    data, of which the run uses the truthiness of [data.ok] and
    [JSON.stringify(data)]. *)
Inductive reply :=
| NetworkError
| BodyUnusable
| Json (ok : bool) (stringified : str).

(** The object given to [JSON.stringify] as the body of the request. *)
Record payload := Payload {
  chat_id : str;
  text : str;
  parse_mode : str;
  disable_web_page_preview : bool
}.

Inductive exn :=
| Error (message : str)
| RangeError
| SyntaxError
| FetchError.

(** The effects of a run, in the order they happen. *)
Inductive event :=
| EvMkdir (p : str)
| EvWrite (p content : str)
| EvFetch (url : str) (body : payload) (r : reply)
| EvLog (line : str)                (** [console.log] *)
| EvError (e : exn).                (** [console.error] *)

(** Regular files by path, directories, [process.env], the clock in
    milliseconds since the epoch, and the endpoint. *)
Record World := {
  files : gmap str str;
  dirs : gset str;
  env : gmap str str;
  clock : Z;
  telegram : reply
}.

Record machine := Machine { world : World; trace : list event }.

Inductive result (A : Type) :=
| Ok (a : A)
| Throw (e : exn).
Arguments Ok {A} a.
Arguments Throw {A} e.

(** Computations that read and change the world, log events and may throw. *)
Definition M (A : Type) : Type := machine -> result A * machine.

#[global] Instance M_ret : MRet M := fun A a st => (Ok a, st).

#[global] Instance M_bind : MBind M := fun A B f m st =>
  match m st with
  | (Ok a, st') => f a st'
  | (Throw e, st') => (Throw e, st')
  end.

Definition throw {A} (e : exn) : M A := fun st => (Throw e, st).

Definition emit (ev : event) : M unit := fun st =>
  (Ok tt, Machine (world st) (trace st ++ [ev])).

Definition ask {A} (f : World -> A) : M A := fun st => (Ok (f (world st)), st).

Definition update (f : World -> World) : M unit := fun st =>
  (Ok tt, Machine (f (world st)) (trace st)).

(** [try { m } catch { return d }]. *)
Definition tryCatch {A} (m : M A) (d : A) : M A := fun st =>
  match m st with
  | (Ok a, st') => (Ok a, st')
  | (Throw _, st') => (Ok d, st')
  end.

Definition liftOption {A} (e : exn) (o : option A) : M A :=
  match o with
  | Some a => mret a
  | None => throw e
  end.

Definition console_log (line : str) : M unit := emit (EvLog line).

(** [process.env.NAME]: [None] is [undefined]. *)
Definition getenv (name : str) : M (option str) := ask (fun w => env w !! name).

(** Truthiness of a value that is a string or [undefined]. *)
Definition truthyOpt (v : option str) : bool :=
  match v with
  | Some s => truthy s
  | None => false
  end.

(** [path.join(a, b)] for normalized relative segments, as the script
    passes them. *)
Definition path_join (a b : str) : str := a ++ lit "/" ++ b.

(** The part of a path after its last [/]. *)
Fixpoint lastSegment (p : str) : str :=
  match p with
  | [] => []
  | c :: p' =>
      if existsb (N.eqb 47) p' then lastSegment p'
      else if (c =? 47)%N then p' else p
  end.

(** [path.basename(p, ext)]: the last segment, without [ext] when it ends
    with it and is not [ext] itself. *)
Definition path_basename (p ext : str) : str :=
  let b := lastSegment p in
  if endsWith ext b && negb (eqb b ext)
  then take (length b - length ext) b else b.

(** The file store accepts what the script asks of it: [mkdirSync],
    [readdirSync] and [writeFileSync] do not throw here (permissions, full
    disks and a file in the place of a directory are outside the model);
    [readFileSync] throws on a path that holds no regular file. *)

Definition readFileSync (p : str) : M str := fun st =>
  match files (world st) !! p with
  | Some content => (Ok content, st)
  | None => (Throw (Error (lit "ENOENT")), st)
  end.

Definition existsSync (p : str) : M bool :=
  ask (fun w => bool_decide (is_Some (files w !! p)) || bool_decide (p ∈ dirs w)).

(** The proper ancestors of a relative path. *)
Fixpoint ancestors (pre p : str) : list str :=
  match p with
  | [] => []
  | c :: p' =>
      if (c =? 47)%N then rev pre :: ancestors (c :: pre) p'
      else ancestors (c :: pre) p'
  end.

Definition mkdirSync_recursive (p : str) : M unit :=
  update (fun w =>
    {| files := files w;
       dirs := dirs w ∪ list_to_set (p :: ancestors [] p);
       env := env w; clock := clock w; telegram := telegram w |});;
  emit (EvMkdir p).

(** The name of [p] when it lies directly in the directory [d]. *)
Definition childName (d p : str) : option str :=
  if startsWith (d ++ lit "/") p then
    let name := drop (length d + 1) p in
    if truthy name && negb (existsb (N.eqb 47) name) then Some name else None
  else None.

Definition readdirSync (d : str) : M (list str) :=
  ask (fun w =>
    omap (childName d) ((map_to_list (files w)).*1 ++ elements (dirs w))).

Definition writeFileSync (p content : str) : M unit :=
  update (fun w =>
    {| files := <[p := content]> (files w);
       dirs := dirs w;
       env := env w; clock := clock w; telegram := telegram w |});;
  emit (EvWrite p content).

(** [await fetch(url, {method: "POST", ..., body: JSON.stringify(body)})]
    followed by [await res.json()]: the request is recorded with the
    reply of the endpoint. *)
Definition fetch_json (url : str) (body : payload) : M reply :=
  r ← ask telegram;
  emit (EvFetch url body r);;
  mret r.

End Node.

(* ===================================================================== *)
(** * scripts/ceo_brief.js *)
(* ===================================================================== *)

Module CeoBrief.
Import JsString Regex JsDate Node.

Definition skipNotice : str :=
  lit "Telegram not configured (missing secrets). Skipping send.".

(** [sendTelegram(text)]. *)
Definition sendTelegram (text : str) : M unit :=
  token ← getenv (lit "TELEGRAM_BOT_TOKEN");
  chatId ← getenv (lit "TELEGRAM_CHAT_ID");
  if negb (truthyOpt token) || negb (truthyOpt chatId) then
    console_log skipNotice
  else
    let url := lit "https://api.telegram.org/bot" ++ default [] token
               ++ lit "/sendMessage" in
    let payload :=
      {| chat_id := default [] chatId;
         text := text;
         parse_mode := lit "Markdown";
         disable_web_page_preview := false |} in
    data ← fetch_json url payload;
    match data with
    | NetworkError => throw FetchError
    | BodyUnusable => throw SyntaxError
    | Json ok stringified =>
        if negb ok then throw (Error (lit "Telegram send failed: " ++ stringified))
        else mret tt
    end.

(** [todayISO()], with the reading of the clock as its argument; [None]
    is the RangeError of [toISOString]. *)
Definition todayISO (now : Z) : option str :=
  let dhaka := newDate (now + 6 * 60 * 60 * 1000) in
  sliceTo 10 <$> toISOString dhaka.

(** [readFileSafe(p)]. *)
Definition readFileSafe (p : str) : M str := tryCatch (readFileSync p) [].

(** The characters of the class [[.*+?^${}()|[\]\\]]. *)
Definition specials : str := Eval vm_compute in lit ".*+?^${}()|[]\".

(** [heading.replace(/[.*+?^${}()|[\]\\]/g, "\\$&")]: a backslash before
    each character of the class. *)
Definition escapeSpecials (heading : str) : str :=
  flat_map (fun c => if existsb (N.eqb c) specials then [92%N; c] else [c])
           heading.

(** The template literal given to [new RegExp]. *)
Definition headingSource (heading : str) : str :=
  lit "^##\s+" ++ escapeSpecials heading ++ lit "\s*$".

(** [/^##\s+/m]. *)
Definition nextHeading : regexp :=
  RegExp [Bol; One (CChar 35%N); One (CChar 35%N); Plus CSpace] true.

(** [extractSection(md, heading)]; [None] when [new RegExp] throws. *)
Definition extractSection (md heading : str) : option str :=
  re ← newRegExp_m (headingSource heading);
  Some
    match exec re md with
    | None => []
    | Some m =>
        let start := (index m + matchLength m)%nat in
        let rest := sliceFrom start md in
        let next := search nextHeading rest in
        trim (match next with
              | None => rest
              | Some n => sliceTo n rest
              end)
    end.

(** [/^\d{4}-\d{2}-\d{2}$/]. *)
Definition dateRe : regexp :=
  RegExp [Bol; Rep 4 CDigit; One (CChar 45%N); Rep 2 CDigit; One (CChar 45%N);
          Rep 2 CDigit; Eol] false.

(** The objects [{ f, d }] of [findLatestBrief]. *)
Record dated := Dated { f : str; d : str }.

(** The comparator [(a, b) => (a.d < b.d ? 1 : -1)]. *)
Definition byDateDesc (a b : dated) : Z :=
  if ltb (d a) (d b) then 1%Z else (-1)%Z.

(** [Array.prototype.sort(cmp)], as a stable insertion sort: [x] goes
    before the first [y] with [cmp x y <= 0].  On the distinct names of
    a directory the comparator of the script is a strict total order, for
    which every sorting algorithm gives the same array. *)
Fixpoint insertBy {A} (cmp : A -> A -> Z) (x : A) (l : list A) : list A :=
  match l with
  | [] => [x]
  | y :: l' => if (cmp x y <=? 0)%Z then x :: l else y :: insertBy cmp x l'
  end.

Definition sortBy {A} (cmp : A -> A -> Z) (l : list A) : list A :=
  foldr (insertBy cmp) [] l.

(** The part of [findLatestBrief] after [readdirSync]. *)
Definition latestDated (briefDir : str) (names : list str) : option str :=
  let files := List.filter (endsWith (lit ".md")) names in
  let dated :=
    sortBy byDateDesc
      (List.filter (fun x => test dateRe (d x))
         (map (fun f => Dated f (replace (lit ".md") [] f)) files)) in
  match dated with
  | x :: _ => Some (path_join briefDir (f x))
  | [] => None
  end.

(** [findLatestBrief(briefDir)]; [None] is [null]. *)
Definition findLatestBrief (briefDir : str) : M (option str) :=
  there ← existsSync briefDir;
  if negb there then mret None
  else
    names ← readdirSync briefDir;
    mret (latestDated briefDir names).

(** The content sections of the long-form report. *)
Inductive section := TopPriorities | Blockers | Decisions | Notes.

(** The string each section falls back to in the long-form report. *)
Definition placeholder (s : section) : str :=
  match s with
  | TopPriorities =>
      lit "_(Not set " ++ emdash ++ lit " update ops/priorities.md)_"
  | Blockers => lit "_None listed_"
  | Decisions => lit "_None listed_"
  | Notes => lit "_No notes_"
  end.

(** The template of [managerReport] with its four content slots filled. *)
Definition reportTemplate (date yesterdayRef top blk dec nts : str) : str :=
  lit "# Daily CEO Brief " ++ emdash ++ lit " Netso" ++ nl
  ++ lit "**Date/time:** " ++ date ++ lit " " ++ emdash
  ++ lit " 10:00 (Asia/Dhaka)" ++ nl
  ++ nl
  ++ lit "## Detailed Manager Report" ++ nl
  ++ nl
  ++ lit "### 1) Top priorities (in order)" ++ nl
  ++ top ++ lit "  " ++ nl
  ++ nl
  ++ lit "### 2) Progress since yesterday" ++ nl
  ++ lit "- Reference previous brief: **" ++ yesterdayRef ++ lit "**" ++ nl
  ++ lit "- _Update ops/run-log.md with what shipped yesterday so this section becomes factual._" ++ nl
  ++ nl
  ++ lit "### 3) Blockers / Risks" ++ nl
  ++ blk ++ lit "  " ++ nl
  ++ nl
  ++ lit "### 4) Decisions needed" ++ nl
  ++ dec ++ lit "  " ++ nl
  ++ nl
  ++ lit "### 5) Docs/checklists to create or update" ++ nl
  ++ lit "- ops/priorities.md (update daily)" ++ nl
  ++ lit "- ops/run-log.md (log real progress)" ++ nl
  ++ lit "- ops/briefs/" ++ date ++ lit ".md (this report)" ++ nl
  ++ nl
  ++ lit "## Notes" ++ nl
  ++ nts ++ nl.

(** The template literal [managerReport]. *)
Definition managerReport
    (date yesterdayRef todayTop blockers decisions notes : str) : str :=
  reportTemplate date yesterdayRef
    (orElse todayTop (placeholder TopPriorities))
    (orElse blockers (placeholder Blockers))
    (orElse decisions (placeholder Decisions))
    (orElse notes (placeholder Notes)).

(** [t.split("\n").slice(0, n).join("\n")]. *)
Definition firstLines (n : nat) (t : str) : str :=
  join nl (sliceTo n (split 10%N t)).

(** The template of [execSummary] with its four interpolations filled. *)
Definition summaryTemplate (date briefUrl note top blk dec : str) : str :=
  lit "*Netso " ++ emdash ++ lit " CEO Brief (" ++ date ++ lit ")*" ++ nl
  ++ lit "*Top priorities:* " ++ note ++ nl
  ++ top ++ nl
  ++ nl
  ++ lit "*Blockers:* " ++ blk ++ nl
  ++ lit "*Decisions:* " ++ dec ++ nl
  ++ lit "*Full report:* " ++ briefUrl.

(** The template literal [execSummary]. *)
Definition execSummary (date briefUrl todayTop blockers decisions : str) : str :=
  summaryTemplate date briefUrl
    (if truthy todayTop then [] else lit "_(Not set)_")
    (if truthy todayTop then firstLines 6 todayTop else [])
    (if truthy blockers then firstLines 4 blockers else lit "_None listed_")
    (if truthy decisions then firstLines 4 decisions else lit "_None listed_").

(** The heading labels [main] asks for. *)
Definition weekLabel : str := lit "This Week Outcomes (measurable)".
Definition topLabel : str :=
  lit "Today " ++ emdash ++ lit " Top Priorities (in order)".
Definition blockersLabel : str := lit "Blockers / Risks".
Definition decisionsLabel : str := lit "Decisions Needed".
Definition notesLabel : str := lit "Notes".

Definition prioritiesPath : str := path_join (lit "ops") (lit "priorities.md").
Definition briefDir : str := path_join (lit "ops") (lit "briefs").
Definition briefPathOf (date : str) : str := path_join briefDir (date ++ lit ".md").

Definition missingSource : exn :=
  Error (lit "Missing ops/priorities.md " ++ emdash ++ lit " create it first.").

(** The body of the async function. *)
Definition main : M unit :=
  repoVar ← getenv (lit "GITHUB_REPO");
  let repo := if truthyOpt repoVar then default [] repoVar else lit "OWNER/REPO" in
  now ← ask clock;
  date ← liftOption RangeError (todayISO now);
  let briefPath := briefPathOf date in
  priorities ← readFileSafe prioritiesPath;
  if negb (truthy priorities) then throw missingSource
  else
    there ← existsSync briefDir;
    (if negb there then mkdirSync_recursive briefDir else mret tt);;
    thisWeek ← liftOption SyntaxError (extractSection priorities weekLabel);
    todayTop ← liftOption SyntaxError (extractSection priorities topLabel);
    blockers ← liftOption SyntaxError (extractSection priorities blockersLabel);
    decisions ← liftOption SyntaxError
      (extractSection priorities decisionsLabel);
    notes ← liftOption SyntaxError (extractSection priorities notesLabel);
    latestBriefPath ← findLatestBrief briefDir;
    let yesterdayRef :=
      match latestBriefPath with
      | Some p => path_basename p (lit ".md")
      | None => lit "N/A"
      end in
    let report :=
      managerReport date yesterdayRef todayTop blockers decisions notes in
    writeFileSync briefPath report;;
    let briefUrl := lit "https://github.com/" ++ repo
                    ++ lit "/blob/main/ops/briefs/" ++ date ++ lit ".md" in
    let summary := execSummary date briefUrl todayTop blockers decisions in
    sendTelegram summary;;
    console_log (lit "Wrote brief: " ++ briefPath);;
    console_log (lit "Telegram sent (if secrets set).").

(** How a run ends: the exit status of the process and the machine it
    leaves. *)
Record outcome := Outcome { exitCode : Z; final : machine }.

(** The script: [main], and the [catch] handler that prints the error and
    calls [process.exit(1)]. *)
Definition run (w : World) : outcome :=
  match main (Machine w []) with
  | (Ok _, st) => Outcome 0 st
  | (Throw e, st) => Outcome 1 (Machine (world st) (trace st ++ [EvError e]))
  end.

End CeoBrief.


(* ===================================================================== *)
(** * Results *)
(* ===================================================================== *)

Import JsString Regex JsDate Node CeoBrief.

(** ** Vocabulary of the statements *)

(** *** Patterns and the matcher *)

(** The pattern the script means for a heading: the label as literal
    characters between the fixed prefix and suffix. *)
Definition headingPattern (heading : str) : pattern :=
  [Bol; One (CChar 35%N); One (CChar 35%N); Plus CSpace]
  ++ map (fun c => One (CChar c)) heading
  ++ [Star CSpace; Eol].

(** The head of an escaped label is never a quantifier. *)
Definition noQuantifierAhead (s : str) : Prop :=
  match s with
  | c :: _ => (c =? 43)%N = false /\ (c =? 42)%N = false
  | [] => True
  end.

(** The pattern of a literal string. *)
Definition literals (l : str) : pattern := map (fun c => One (CChar c)) l.

(** A continuation that does not look at the previous character. *)
Definition ignoresPrev (cont : option char -> str -> option str) : Prop :=
  forall p1 p2 s, cont p1 s = cont p2 s.

(** Whitespace only. *)
Definition allSpace (w : str) : Prop := Forall (fun c => isSpace c = true) w.

(** The character before the position reached after reading [a]. *)
Definition prevAfter (prev : option N) (a : str) : option N :=
  match last a with
  | Some c => Some c
  | None => prev
  end.

(** *** Sections of the source document *)

(** [s] begins with [##] and a whitespace character; the line terminator
    that ends a line [##] counts, as it does for [/^##\s+/m]. *)
Definition startsHeading (s : str) : bool :=
  match s with
  | c1 :: c2 :: c3 :: _ => (35 =? c1)%N && (35 =? c2)%N && isSpace c3
  | _ => false
  end.

(** The text up to the next line that begins with [##] and a whitespace
    character; [atStart] tells whether [s] begins a line. *)
Fixpoint untilNextHeading (atStart : bool) (s : str) : str :=
  match s with
  | [] => []
  | c :: s' =>
      if atStart && startsHeading s then []
      else c :: untilNextHeading (isLineTerminator c) s'
  end.

(** No line terminator in [l]. *)
Definition oneLine (l : str) : Prop :=
  Forall (fun c => isLineTerminator c = false) l.

(** The line that begins at [s], without its terminator. *)
Fixpoint lineOf (s : str) : str :=
  match s with
  | [] => []
  | c :: s' => if isLineTerminator c then [] else c :: lineOf s'
  end.

(** What follows the line that begins at [s], its terminator included. *)
Fixpoint afterLine (s : str) : str :=
  match s with
  | [] => []
  | c :: s' => if isLineTerminator c then s else afterLine s'
  end.

(** The number of whitespace characters [s] begins with. *)
Fixpoint leadingSpaces (s : str) : nat :=
  match s with
  | c :: s' => if isSpace c then S (leadingSpaces s') else 0
  | [] => 0
  end.

(** A heading line for [label]: [##], whitespace, the label, and nothing
    but whitespace after it. *)
Definition isHeadingLine (label line : str) : bool :=
  match line with
  | c1 :: c2 :: t =>
      (35 =? c1)%N && (35 =? c2)%N
      && existsb (fun j => startsWith label (drop j t)
                           && forallb isSpace (drop (j + length label) t))
                 (seq 1 (leadingSpaces t))
  | _ => false
  end.

(** The section of [label] as the specification words it, line by line:
    the text between the end of the first heading line for [label] and the
    next line that begins with [##] and whitespace, trimmed; [None] when
    the document has no heading line for [label]. *)
Fixpoint sectionFrom (atStart : bool) (label s : str) : option str :=
  if atStart && isHeadingLine label (lineOf s)
  then Some (trim (untilNextHeading false (afterLine s)))
  else match s with
       | [] => None
       | c :: s' => sectionFrom (isLineTerminator c) label s'
       end.

(** The same from the start of the document. *)
Definition sectionByLines (md label : str) : option str :=
  sectionFrom true label md.

(** Whether the position reached after reading [a] begins a line. *)
Definition lineStartAfter (atStart : bool) (a : str) : bool :=
  match last a with
  | Some c => isLineTerminator c
  | None => atStart
  end.

(** An occurrence of the heading as the pattern of the script sees it: at
    the start of a line, [##], one or more whitespace characters [w]
    (line terminators are whitespace), the label, and after it nothing but
    whitespace up to the end of a line. *)
Definition HeadingAt (md label pre w after : str) : Prop :=
  md = pre ++ [35; 35]%N ++ w ++ label ++ after
  /\ atLineStart true (last pre) = true
  /\ w <> [] /\ allSpace w
  /\ exists w' r, after = w' ++ r /\ allSpace w' /\ atLineEnd true r = true.

(** The first of these occurrences. *)
Definition FirstHeadingAt (md label pre w after : str) : Prop :=
  HeadingAt md label pre w after
  /\ forall pre' w' after',
       HeadingAt md label pre' w' after' -> length pre <= length pre'.

(** A document whose first [##] stands alone on its line, before a line
    that holds the label, and which has the heading line further down. *)
Definition crossLineDoc : str := lit "##
Notes
foo
## Notes
bar".

(** A document with a lone [##] before a line that holds the label, and
    no heading line for it. *)
Definition strayMarkerDoc : str := lit "##
Blockers / Risks
none
".

(** *** The long-form report and the summary *)





(** *** Report names and listings *)

(** The characters of a date string. *)
Definition isDateChar (c : N) : bool := isDigit c || (c =? 45)%N.

(** A date string: four digits, a dash, two digits, a dash, two digits. *)
Definition isDateString (d : str) : bool :=
  match d with
  | [y1; y2; y3; y4; h1; m1; m2; h2; d1; d2] =>
      isDigit y1 && isDigit y2 && isDigit y3 && isDigit y4 && (h1 =? 45)%N
      && isDigit m1 && isDigit m2 && (h2 =? 45)%N && isDigit d1 && isDigit d2
  | _ => false
  end.

(** A file name minus its three-character extension. *)
Definition stem (f : str) : str := take (length f - 3) f.

(** The names of reports: a date string followed by [.md]. *)
Definition isReportName (f : str) : bool :=
  endsWith (lit ".md") f && isDateString (stem f).

(** The names [readdirSync] lists in a directory. *)
Definition entries (dir : str) (w : World) : list str :=
  omap (childName dir) ((map_to_list (files w)).*1 ++ elements (dirs w)).

(** The directory exists in the store. *)
Definition present (p : str) (w : World) : bool :=
  bool_decide (is_Some (files w !! p)) || bool_decide (p ∈ dirs w).

(** The three names of the specification's example. *)
Definition exampleNames : list str :=
  [lit "2024-01-01.md"; lit "2024-02-15.md"; lit "notes.md"].

(** *** Runs *)

(** The long-form reports of a date and a source document: the template
    filled with the five-heading extraction of the document. *)
Definition isReport (date priorities report : str) : Prop :=
  exists yesterdayRef todayTop blockers decisions notes,
    extractSection priorities topLabel = Some todayTop
    /\ extractSection priorities blockersLabel = Some blockers
    /\ extractSection priorities decisionsLabel = Some decisions
    /\ extractSection priorities notesLabel = Some notes
    /\ report = managerReport date yesterdayRef todayTop blockers decisions notes.

(** The names of the two credentials in the environment. *)
Definition tokenVar : str := lit "TELEGRAM_BOT_TOKEN".
Definition chatVar : str := lit "TELEGRAM_CHAT_ID".

(** Both messaging credentials are set and not empty. *)
Definition credentialsPresent (w : World) : bool :=
  truthyOpt (env w !! tokenVar) && truthyOpt (env w !! chatVar).

(** The rest of [main] once the report is written. *)
Definition deliver (date summary : str) : M unit :=
  sendTelegram summary;;
  console_log (lit "Wrote brief: " ++ briefPathOf date);;
  console_log (lit "Telegram sent (if secrets set).").

(** The world [w] with other regular files. *)
Definition withFiles (fs : gmap str str) (w : World) : World :=
  {| files := fs; dirs := dirs w; env := env w; clock := clock w;
     telegram := telegram w |}.

(** No request leaves the process during the run. *)
Definition noNetworkCall (o : outcome) : Prop :=
  forall url body r, EvFetch url body r ∉ trace (final o).

(** Nothing is created or written during the run. *)
Definition nothingWritten (o : outcome) : Prop :=
  forall ev, ev ∈ trace (final o) ->
    match ev with
    | EvMkdir _ | EvWrite _ _ => False
    | _ => True
    end.


(** A fresh checkout at 2024-11-03T06:40:00.123Z: no file, no directory,
    no variable in the environment. *)
Definition bareWorld : World :=
  {| files := ∅; dirs := ∅; env := ∅; clock := 1730616000123;
     telegram := Json true (lit "{}") |}.

(** A checkout with a source document of two sections. *)
Definition sampleSource : str :=
  lit "## Today " ++ emdash ++ lit " Top Priorities (in order)" ++ nl
  ++ lit "- Ship X" ++ nl ++ lit "- Fix Y" ++ nl
  ++ lit "## Notes" ++ nl ++ lit "remember" ++ nl.

(** A checkout that holds the sample document, with the given
    environment and endpoint. *)
Definition sampleWorld (e : gmap str str) (r : reply) : World :=
  {| files := {[ prioritiesPath := sampleSource ]};
     dirs := {[ lit "ops" ]};
     env := e; clock := 1730616000123; telegram := r |}.

(** Token and chat identifier of the sample runs. *)
Definition sampleSecrets : gmap str str :=
  {[ tokenVar := lit "123:abc"; chatVar := lit "42" ]}.


(** *** The calendar *)

Local Open Scope Z_scope.

(** The leap years of the Gregorian calendar. *)
Definition isLeapYear (y : Z) : bool :=
  ((y mod 4 =? 0) && negb (y mod 100 =? 0)) || (y mod 400 =? 0).

(** The leap years among the years 1 to [y - 1]. *)
Definition leapYearsBefore (y : Z) : Z :=
  (y - 1) / 4 - (y - 1) / 100 + (y - 1) / 400.

(** The days from 1 January 1970 to 1 January of the year [y]. *)
Definition daysBeforeYear (y : Z) : Z :=
  365 * (y - 1970) + (leapYearsBefore y - leapYearsBefore 1970).

(** The days of the month [m] of the year [y]. *)
Definition monthLength (y m : Z) : Z :=
  match m with
  | 1 | 3 | 5 | 7 | 8 | 10 | 12 => 31
  | 4 | 6 | 9 | 11 => 30
  | 2 => if isLeapYear y then 29 else 28
  | _ => 0
  end.

(** The days of the year [y] before its month [m]. *)
Definition daysBeforeMonth (y m : Z) : Z :=
  foldr Z.add 0
    (map (fun k => monthLength y (Z.of_nat k)) (seq 1 (Z.to_nat (m - 1)))).

(** The number of the day [y]-[m]-[dd], counted from 1 January 1970. *)
Definition dayNumber (y m dd : Z) : Z :=
  daysBeforeYear y + daysBeforeMonth y m + (dd - 1).

(** [m] is a month and [dd] one of its days. *)
Definition validDate (y m dd : Z) : Prop :=
  1 <= m <= 12 /\ 1 <= dd <= monthLength y m.

(** The number a string of decimal digits denotes. *)
Definition decimalValue (s : str) : Z :=
  fold_left (fun acc c => 10 * acc + (Z.of_N c - 48)) s 0.

(** [s] is the date [y]-[m]-[dd] written as YYYY-MM-DD. *)
Definition readsAsDate (s : str) (y m dd : Z) : Prop :=
  exists ys ms ds,
    s = ys ++ lit "-" ++ ms ++ lit "-" ++ ds
    /\ length ys = 4%nat /\ length ms = 2%nat /\ length ds = 2%nat
    /\ Forall (fun c => isDigit c = true) (ys ++ ms ++ ds)
    /\ decimalValue ys = y /\ decimalValue ms = m /\ decimalValue ds = dd.

Local Close Scope Z_scope.

(** *** The whole run *)

(** A run that reaches the delivery: a date, and a source document that
    is present and not empty. *)
Definition pastGuard (w : World) (date priorities : str) : Prop :=
  todayISO (clock w) = Some date
  /\ files w !! prioritiesPath = Some priorities
  /\ priorities <> [].

(** The four sections [main] puts in the report. *)
Record sections := Sections {
  secTop : str; secBlockers : str; secDecisions : str; secNotes : str
}.

(** They are the sections of the source document. *)
Definition extracted (priorities : str) (s : sections) : Prop :=
  extractSection priorities topLabel = Some (secTop s)
  /\ extractSection priorities blockersLabel = Some (secBlockers s)
  /\ extractSection priorities decisionsLabel = Some (secDecisions s)
  /\ extractSection priorities notesLabel = Some (secNotes s).

(** The repository named in the link: [GITHUB_REPO], or the default when
    the variable is unset or empty. *)
Definition repoOf (w : World) : str :=
  if truthyOpt (env w !! lit "GITHUB_REPO")
  then default [] (env w !! lit "GITHUB_REPO")
  else lit "OWNER/REPO".

(** The link to the report of [date]. *)
Definition briefUrlOf (w : World) (date : str) : str :=
  lit "https://github.com/" ++ repoOf w ++ lit "/blob/main/ops/briefs/"
  ++ date ++ lit ".md".

(** What the run does between the guard and the write of the report: it
    makes the output directory when it is not there. *)
Definition stepsBefore (w : World) : list event :=
  if present briefDir w then [] else [EvMkdir briefDir].

(** The directories once the output directory is ensured. *)
Definition dirsAfter (w : World) : gset str :=
  if present briefDir w then dirs w
  else dirs w ∪ list_to_set (briefDir :: ancestors [] briefDir).

(** The world once the output directory is ensured. *)
Definition ensured (w : World) : World :=
  {| files := files w; dirs := dirsAfter w;
     env := env w; clock := clock w; telegram := telegram w |}.

(** The reference to the previous report that [main] puts in the report. *)
Definition yesterdayRefOf (w : World) : str :=
  match latestDated briefDir (entries briefDir (ensured w)) with
  | Some p => path_basename p (lit ".md")
  | None => lit "N/A"
  end.

(** The report and the summary of a run. *)
Definition reportOf (w : World) (date : str) (s : sections) : str :=
  managerReport date (yesterdayRefOf w)
    (secTop s) (secBlockers s) (secDecisions s) (secNotes s).

Definition summaryOf (w : World) (date : str) (s : sections) : str :=
  execSummary date (briefUrlOf w date)
    (secTop s) (secBlockers s) (secDecisions s).

(** The world once the report is written. *)
Definition worldAfter (w : World) (date report : str) : World :=
  {| files := <[briefPathOf date := report]> (files w);
     dirs := dirsAfter w;
     env := env w; clock := clock w; telegram := telegram w |}.

(** The request [sendTelegram] makes. *)
Definition requestUrl (w : World) : str :=
  lit "https://api.telegram.org/bot" ++ default [] (env w !! tokenVar)
  ++ lit "/sendMessage".

Definition requestBody (w : World) (summary : str) : payload :=
  {| chat_id := default [] (env w !! chatVar);
     text := summary;
     parse_mode := lit "Markdown";
     disable_web_page_preview := false |}.

(** The exception [sendTelegram] throws on a reply, if any. *)
Definition deliveryError (r : reply) : option exn :=
  match r with
  | NetworkError => Some FetchError
  | BodyUnusable => Some SyntaxError
  | Json false stringified =>
      Some (Error (lit "Telegram send failed: " ++ stringified))
  | Json true _ => None
  end.

(** The two log lines that close a run. *)
Definition closingLogs (date : str) : list event :=
  [EvLog (lit "Wrote brief: " ++ briefPathOf date);
   EvLog (lit "Telegram sent (if secrets set).")].

(** The events of a run after the write of the report. *)
Definition deliveryEvents (w : World) (date summary : str) : list event :=
  if credentialsPresent w then
    EvFetch (requestUrl w) (requestBody w summary) (telegram w)
    :: match deliveryError (telegram w) with
       | Some e => [EvError e]
       | None => closingLogs date
       end
  else EvLog skipNotice :: closingLogs date.

(** The exit status of a run past the guard. *)
Definition exitPastGuard (w : World) : Z :=
  if credentialsPresent w then
    match deliveryError (telegram w) with
    | Some _ => 1%Z
    | None => 0%Z
    end
  else 0%Z.

(** The events that send a request, and those that write a file. *)
Definition isRequest (ev : event) : bool :=
  match ev with EvFetch _ _ _ => true | _ => false end.

Definition isWrite (ev : event) : bool :=
  match ev with EvWrite _ _ => true | _ => false end.

(** The sample checkout on a second run of 2024-11-03: the report of the
    day is already there, beside the one of the day before. *)
Definition rerunWorld : World :=
  {| files := {[ prioritiesPath := sampleSource;
                 briefPathOf (lit "2024-11-02") := lit "the day before";
                 briefPathOf (lit "2024-11-03") := lit "first run" ]};
     dirs := {[ lit "ops"; briefDir ]};
     env := ∅; clock := 1730616000123; telegram := NetworkError |}.

(** *** Dates and the names of reports *)

(** The time value [todayISO] formats: the reading of the clock shifted
    by six hours. *)
Definition dhakaTime (now : Z) : Z := (now + 6 * 60 * 60 * 1000)%Z.

(** The readings of the clock that fall, six hours later, in the years
    0000 to 9999, which [toISOString] writes with four digits. *)
Definition fourDigitYears (now : Z) : Prop :=
  (-62167219200000 <= dhakaTime now < 253402300800000)%Z.

(** The string YYYY-MM-DD of a year, a month and a day. *)
Definition isoDate (y m dd : Z) : str :=
  padded 4 y ++ lit "-" ++ padded 2 m ++ lit "-" ++ padded 2 dd.

(** [new Date(t).toISOString().slice(0, 10)]: the UTC date of the time
    value [t]. *)
Definition utcDate (t : Z) : option str :=
  sliceTo 10 <$> toISOString (newDate t).

(** *** Parts of the source document *)

(** [x] is a part of [s]. *)
Definition substring (x s : str) : Prop := exists a b, s = a ++ x ++ b.

(** [x] neither begins nor ends with whitespace. *)
Definition trimmed (x : str) : Prop :=
  (forall c, head x = Some c -> isSpace c = false)
  /\ (forall c, last x = Some c -> isSpace c = false).

(** No [##] of the document ends its line: the whitespace that follows
    it, if any, holds no line terminator. *)
Fixpoint markersOnOneLine (s : str) : bool :=
  match s with
  | [] => true
  | _ :: s' =>
      (if startsWith [35; 35]%N s
       then forallb (fun c => negb (isLineTerminator c))
              (take (leadingSpaces (drop 2 s)) (drop 2 s))
       else true)
      && markersOnOneLine s'
  end.

(** ** Tactics *)

Arguments lit : simpl never.
Arguments extractSection : simpl never.
Arguments managerReport : simpl never.
Arguments execSummary : simpl never.
Arguments latestDated : simpl never.
Arguments path_basename : simpl never.
Arguments todayISO : simpl never.

Ltac mstep :=
  repeat (unfold mkdirSync_recursive, writeFileSync, fetch_json;
          unfold mbind, M_bind, mret, M_ret;
          cbn [ask update emit throw getenv console_log
               readFileSafe tryCatch readFileSync existsSync liftOption
               mkdirSync_recursive writeFileSync fetch_json
               world trace files dirs env clock telegram
               negb truthy exitCode final]).

Ltac mfinish :=
  mstep; unfold console_log, emit, throw; cbn [world trace];
  rewrite <- ?app_assoc; cbn [app].

(** ** The pattern of a heading *)

Lemma specials_syntax c :
  existsb (N.eqb c) specials = isSyntaxChar c.
Proof.
  unfold isSyntaxChar, specials, syntaxChars. cbn [existsb].
  repeat match goal with
  | |- context [N.eqb c ?k] =>
      destruct (N.eqb_spec c k) as [->|?]; [reflexivity|]
  end.
  reflexivity.
Qed.

Lemma escapeSpecials_cons c h :
  escapeSpecials (c :: h)
  = (if isSyntaxChar c then [92%N; c] else [c]) ++ escapeSpecials h.
Proof. rewrite <- specials_syntax. reflexivity. Qed.

Lemma escapeSet_special c :
  isSyntaxChar c = true -> escapeSet c = Some (CChar c).
Proof.
  intros H. unfold escapeSet. rewrite H.
  destruct (c =? 115)%N eqn:E1.
  { apply N.eqb_eq in E1. subst c. discriminate H. }
  destruct (c =? 100)%N eqn:E2.
  { apply N.eqb_eq in E2. subst c. discriminate H. }
  reflexivity.
Qed.

Lemma plain_char_tests c :
  isSyntaxChar c = false ->
  (c =? 94)%N = false /\ (c =? 36)%N = false /\ (c =? 92)%N = false
  /\ (c =? 43)%N = false /\ (c =? 42)%N = false.
Proof.
  unfold isSyntaxChar, syntaxChars. cbn. intros H.
  repeat (apply orb_false_elim in H; destruct H as [? H]). auto.
Qed.

Lemma quantified_One k s :
  noQuantifierAhead s -> quantified k s = (One k, s).
Proof.
  destruct s as [|c s]; [reflexivity|]. cbn. intros [-> ->]. reflexivity.
Qed.

Lemma escapeSpecials_noQuantifier h rest :
  noQuantifierAhead rest -> noQuantifierAhead (escapeSpecials h ++ rest).
Proof.
  intros Hr. destruct h as [|c h]; [exact Hr|].
  rewrite escapeSpecials_cons.
  destruct (isSyntaxChar c) eqn:E; cbn.
  - split; reflexivity.
  - destruct (plain_char_tests c E) as (_ & _ & _ & ? & ?). auto.
Qed.

Lemma parseFuel_escaped h : forall rest p n,
  noQuantifierAhead rest ->
  (forall m, n <= m -> parseFuel m rest = Some p) ->
  forall m, n + length h <= m ->
  parseFuel m (escapeSpecials h ++ rest)
  = Some (map (fun c => One (CChar c)) h ++ p).
Proof.
  induction h as [|c h IH]; intros rest p n Hq Hrest m Hm.
  - cbn. apply Hrest. cbn in Hm. lia.
  - cbn in Hm. destruct m as [|m]; [lia|].
    assert (Htail : parseFuel m (escapeSpecials h ++ rest)
                    = Some (map (fun c => One (CChar c)) h ++ p)).
    { apply (IH rest p n Hq Hrest). lia. }
    assert (Hnq := escapeSpecials_noQuantifier h rest Hq).
    rewrite escapeSpecials_cons.
    destruct (isSyntaxChar c) eqn:E.
    + cbn [app parseFuel]. change (92 =? 94)%N with false.
      change (92 =? 36)%N with false. change (92 =? 92)%N with true.
      cbn match. rewrite (escapeSet_special c E).
      rewrite (quantified_One _ _ Hnq). rewrite Htail. reflexivity.
    + destruct (plain_char_tests c E) as (E1 & E2 & E3 & _ & _).
      cbn [app parseFuel]. rewrite E1, E2, E3, E.
      rewrite (quantified_One _ _ Hnq). rewrite Htail. reflexivity.
Qed.

(** The constructor never throws on the pattern built for a heading, and
    the label stands in it as literal characters, whatever it contains. *)
Lemma newRegExp_heading h :
  newRegExp_m (headingSource h) = Some (RegExp (headingPattern h) true).
Proof.
  unfold newRegExp_m, parse, headingSource.
  set (src := lit "^##\s+" ++ escapeSpecials h ++ lit "\s*$").
  assert (Hlen : 6 + length h + 4 <= length src).
  { unfold src. rewrite !length_app.
    assert (length h <= length (escapeSpecials h)).
    { clear. induction h as [|c h IH]; [reflexivity|].
      rewrite escapeSpecials_cons, length_app.
      destruct (isSyntaxChar c); cbn; lia. }
    change (length (lit "^##\s+")) with 6. change (length (lit "\s*$")) with 4.
    lia. }
  remember (S (length src)) as fuel eqn:Hf.
  assert (Hfuel : 4 + (3 + length h) <= fuel) by lia.
  clear Hf Hlen. unfold src. clear src.
  change (lit "^##\s+") with [94; 35; 35; 92; 115; 43]%N.
  change (lit "\s*$") with [92; 115; 42; 36]%N.
  do 4 (destruct fuel as [|fuel]; [lia|]).
  cbn [app parseFuel N.eqb Pos.eqb escapeSet quantified].
  change (isSyntaxChar 35%N) with false. cbn match.
  rewrite (parseFuel_escaped h [92; 115; 42; 36]%N [Star CSpace; Eol] 3).
  - reflexivity.
  - cbn. auto.
  - intros m Hm. do 3 (destruct m as [|m]; [lia|]). reflexivity.
  - lia.
Qed.

(** [extractSection] always returns. *)
Lemma extractSection_total md h : is_Some (extractSection md h).
Proof. unfold extractSection. rewrite newRegExp_heading. cbn. eauto. Qed.

(** ** Stepping through a run *)

(** [readFileSafe] never throws: the content, or the empty string. *)
Lemma readFileSafe_eq p st :
  readFileSafe p st = (Ok (default [] (files (world st) !! p)), st).
Proof.
  unfold readFileSafe, tryCatch, readFileSync.
  destruct (files (world st) !! p); reflexivity.
Qed.

(** [findLatestBrief] reads the store and leaves the machine as it is. *)
Lemma findLatestBrief_eq dir st :
  exists latest, findLatestBrief dir st = (Ok latest, st).
Proof.
  unfold findLatestBrief, readdirSync. mstep.
  destruct (_ || _); mstep; eauto.
Qed.

(** What [main] does before the source-document guard lets it through. *)
Lemma main_guard w :
  (todayISO (clock w) = None \/ files w !! prioritiesPath = None
   \/ files w !! prioritiesPath = Some []) ->
  exists e, main (Machine w []) = (Throw e, Machine w [])
            /\ (is_Some (todayISO (clock w)) -> e = missingSource).
Proof.
  intros H. unfold main. mstep.
  destruct (todayISO (clock w)) as [date|] eqn:Hd; mstep.
  2:{ exists RangeError. split; [reflexivity|]. intros [? ?]. discriminate. }
  exists missingSource. split; [|reflexivity]. rewrite readFileSafe_eq.
  destruct H as [H|[H|H]]; [discriminate| |]; cbn [world]; rewrite H;
    reflexivity.
Qed.

(** Past the guard, [main] writes the report and hands over to the
    delivery step; nothing else has happened but an optional [mkdir]. *)
Lemma main_to_delivery w date priorities :
  todayISO (clock w) = Some date ->
  files w !! prioritiesPath = Some priorities ->
  priorities <> [] ->
  exists pre report summary w1,
    (pre = [] \/ pre = [EvMkdir briefDir])
    /\ isReport date priorities report
    /\ files w1 = <[briefPathOf date := report]> (files w)
    /\ env w1 = env w /\ telegram w1 = telegram w
    /\ main (Machine w [])
       = deliver date summary
           (Machine w1 (pre ++ [EvWrite (briefPathOf date) report])).
Proof.
  intros Hd Hp Hne. unfold main. mstep. rewrite Hd. mstep.
  rewrite readFileSafe_eq. cbn [world]. rewrite Hp.
  destruct priorities as [|c priorities]; [congruence|].
  cbn [from_option id]. mstep.
  set (md := c :: priorities).
  destruct (extractSection_total md weekLabel) as [tw Htw].
  destruct (extractSection_total md topLabel) as [top Htop].
  destruct (extractSection_total md blockersLabel) as [blk Hblk].
  destruct (extractSection_total md decisionsLabel) as [dec Hdec].
  destruct (extractSection_total md notesLabel) as [nts Hnts].
  destruct (bool_decide (is_Some (files w !! briefDir))
            || bool_decide (briefDir ∈ dirs w)) eqn:Hex; mstep;
    rewrite Htw, Htop, Hblk, Hdec, Hnts; mstep;
    match goal with
    | |- context [findLatestBrief ?dir ?st] =>
        destruct (findLatestBrief_eq dir st) as [latest Hl]; rewrite Hl
    end; mstep;
    [eexists [], _, _, _; split; [left; reflexivity|]
    |eexists [EvMkdir briefDir], _, _, _; split; [right; reflexivity|]];
    (split; [|split; [|split; [|split]]]; cycle -1;
     [reflexivity
     |do 5 eexists; repeat (split; [eassumption|]); reflexivity
     |reflexivity..]).
Qed.

(** Without both credentials the delivery step only logs. *)
Lemma deliver_skip date summary st :
  credentialsPresent (world st) = false ->
  deliver date summary st
  = (Ok tt,
     Machine (world st)
       (trace st ++ [EvLog skipNotice;
                     EvLog (lit "Wrote brief: " ++ briefPathOf date);
                     EvLog (lit "Telegram sent (if secrets set).")])).
Proof.
  unfold credentialsPresent, deliver, sendTelegram.
  fold tokenVar chatVar. intros H. mstep.
  replace (negb (truthyOpt (env (world st) !! tokenVar))
           || negb (truthyOpt (env (world st) !! chatVar))) with true
    by (rewrite <- negb_andb, H; reflexivity).
  mfinish. reflexivity.
Qed.

(** With both credentials it makes one request, and the reply decides. *)
Lemma deliver_send date summary st :
  credentialsPresent (world st) = true ->
  exists url body,
    deliver date summary st
    = match telegram (world st) with
      | Json true _ =>
          (Ok tt,
           Machine (world st)
             (trace st ++ [EvFetch url body (telegram (world st));
                           EvLog (lit "Wrote brief: " ++ briefPathOf date);
                           EvLog (lit "Telegram sent (if secrets set).")]))
      | r =>
          (Throw match r with
                 | NetworkError => FetchError
                 | BodyUnusable => SyntaxError
                 | Json _ stringified =>
                     Error (lit "Telegram send failed: " ++ stringified)
                 end,
           Machine (world st) (trace st ++ [EvFetch url body r]))
      end.
Proof.
  unfold credentialsPresent, deliver, sendTelegram.
  fold tokenVar chatVar. intros H. mstep.
  replace (negb (truthyOpt (env (world st) !! tokenVar))
           || negb (truthyOpt (env (world st) !! chatVar))) with false
    by (rewrite <- negb_andb, H; reflexivity).
  mstep. do 2 eexists.
  destruct (telegram (world st)) as [| |[|] raw]; mfinish; reflexivity.
Qed.

(** ** Runs of the script *)

(** The outcome of a run stopped by the guard. *)
Lemma run_guard w :
  (todayISO (clock w) = None \/ files w !! prioritiesPath = None
   \/ files w !! prioritiesPath = Some []) ->
  exists e, run w = Outcome 1 (Machine w [EvError e])
            /\ (is_Some (todayISO (clock w)) -> e = missingSource).
Proof.
  intros H. destruct (main_guard w H) as (e & He & Hm).
  exists e. split; [|exact Hm]. unfold run. rewrite He. reflexivity.
Qed.

(** C5. When [ops/priorities.md] does not exist the run exits with
    status 1; the store is left as it was and the only effect of the run
    is the error printed by the handler: no directory made, no file
    written, no request sent, nothing on the standard output. *)
Theorem missing_source_is_fatal (w : World) :
  files w !! prioritiesPath = None ->
  exitCode (run w) = 1%Z
  /\ world (final (run w)) = w
  /\ (exists e, trace (final (run w)) = [EvError e])
  /\ nothingWritten (run w)
  /\ noNetworkCall (run w).
Proof.
  intros H. destruct (run_guard w) as (e & -> & _); [auto|].
  cbn. split; [reflexivity|]. split; [reflexivity|].
  split; [eauto|]. split.
  - intros ev Hev. apply list_elem_of_singleton in Hev. subst ev. exact I.
  - intros url body r Hev. apply list_elem_of_singleton in Hev. discriminate.
Qed.

Lemma missing_source_is_fatal_witness :
  files bareWorld !! prioritiesPath = None
  /\ exitCode (run bareWorld) = 1%Z
  /\ trace (final (run bareWorld)) = [EvError missingSource].
Proof.
  split; [reflexivity|].
  split; [apply (missing_source_is_fatal bareWorld); reflexivity|].
  vm_compute. reflexivity.
Defined.

(** C10. An empty [ops/priorities.md] is treated as a missing one:
    [readFileSafe] gives the empty string for both, and the run on the
    world with the empty document ends as the run on the same world without
    the document does: exit status 1, the same single error printed, the
    store untouched, nothing written and no request sent. *)
Theorem empty_source_like_missing (w : World) :
  files w !! prioritiesPath = Some [] ->
  let w' := withFiles (delete prioritiesPath (files w)) w in
  readFileSafe prioritiesPath (Machine w []) = (Ok [], Machine w [])
  /\ readFileSafe prioritiesPath (Machine w' []) = (Ok [], Machine w' [])
  /\ exitCode (run w) = 1%Z
  /\ exitCode (run w') = exitCode (run w)
  /\ trace (final (run w')) = trace (final (run w))
  /\ world (final (run w)) = w
  /\ world (final (run w')) = w'
  /\ nothingWritten (run w)
  /\ noNetworkCall (run w).
Proof.
  intros H w'.
  assert (H' : files w' !! prioritiesPath = None) by apply lookup_delete_eq.
  split; [rewrite readFileSafe_eq; cbn [world]; rewrite H; reflexivity|].
  split; [rewrite readFileSafe_eq; cbn [world]; rewrite H'; reflexivity|].
  destruct (todayISO (clock w)) as [date|] eqn:Hd.
  - destruct (run_guard w) as (e & Hr & He); [auto|].
    destruct (run_guard w') as (e' & Hr' & He'); [auto|].
    rewrite (He ltac:(eauto)) in Hr.
    rewrite (He' ltac:(unfold w'; cbn [clock withFiles]; eauto)) in Hr'.
    rewrite Hr, Hr'. cbn. repeat (split; [reflexivity|]). split.
    + intros ev Hev. apply list_elem_of_singleton in Hev. subst ev. exact I.
    + intros url body r Hev. apply list_elem_of_singleton in Hev.
      discriminate.
  - unfold run. unfold main. mstep.
    change (clock w') with (clock w). rewrite Hd. mfinish.
    repeat (split; [reflexivity|]). split.
    + intros ev Hev. apply list_elem_of_singleton in Hev. subst ev. exact I.
    + intros url body r Hev. apply list_elem_of_singleton in Hev.
      discriminate.
Qed.

Lemma empty_source_like_missing_witness :
  let w := withFiles {[ prioritiesPath := [] ]} bareWorld in
  files w !! prioritiesPath = Some []
  /\ exitCode (run w) = 1%Z
  /\ trace (final (run bareWorld)) = trace (final (run w)).
Proof.
  intros w.
  assert (H : files w !! prioritiesPath = Some []) by reflexivity.
  destruct (empty_source_like_missing w H) as (_ & _ & Hc & _ & Ht & _).
  split; [exact H|]. split; [exact Hc|].
  rewrite <- Ht. vm_compute. reflexivity.
Defined.

(** A request found in a trace that starts with the steps before the
    delivery lies after the write of the report. *)
Lemma fetch_after_write pre p content tail url body r :
  (pre = [] \/ pre = [EvMkdir briefDir]) ->
  EvFetch url body r ∈ pre ++ EvWrite p content :: tail ->
  EvFetch url body r ∈ tail.
Proof.
  intros Hpre Hin.
  apply elem_of_app in Hin as [Hin|Hin].
  - destruct Hpre as [-> | ->].
    + apply elem_of_nil in Hin. destruct Hin.
    + apply list_elem_of_singleton in Hin. discriminate.
  - apply elem_of_cons in Hin as [Hin|Hin]; [discriminate|exact Hin].
Qed.

(** C6. Whenever the endpoint answers the request of the run with a
    falsy [ok], the run exits with status 1, and the report of the day was
    written before the request was made: the trace is an optional
    [mkdir], the write of the report at [ops/briefs/<date>.md], the
    request, and the printed error; the store holds the report when the
    run ends; both credentials were present. *)
Theorem delivery_failure_after_report (w : World) url body stringified :
  EvFetch url body (Json false stringified) ∈ trace (final (run w)) ->
  exitCode (run w) = 1%Z
  /\ credentialsPresent w = true
  /\ exists date priorities report pre,
       todayISO (clock w) = Some date
       /\ files w !! prioritiesPath = Some priorities
       /\ isReport date priorities report
       /\ (pre = [] \/ pre = [EvMkdir briefDir])
       /\ trace (final (run w))
          = pre ++ [EvWrite (briefPathOf date) report;
                    EvFetch url body (Json false stringified);
                    EvError (Error (lit "Telegram send failed: "
                                    ++ stringified))]
       /\ files (world (final (run w))) !! briefPathOf date = Some report.
Proof.
  intros Hin.
  destruct (todayISO (clock w)) as [date|] eqn:Hd; cycle 1.
  { destruct (run_guard w) as (e & Hr & _); [auto|]. rewrite Hr in Hin.
    apply list_elem_of_singleton in Hin. discriminate. }
  destruct (files w !! prioritiesPath) as [priorities|] eqn:Hp; cycle 1.
  { destruct (run_guard w) as (e & Hr & _); [auto|]. rewrite Hr in Hin.
    apply list_elem_of_singleton in Hin. discriminate. }
  destruct priorities as [|c priorities].
  { destruct (run_guard w) as (e & Hr & _); [auto|]. rewrite Hr in Hin.
    apply list_elem_of_singleton in Hin. discriminate. }
  destruct (main_to_delivery w date (c :: priorities) Hd Hp)
    as (pre & report & summary & w1 & Hpre & Hrep & Hf & He & Ht & Hmain);
    [discriminate|].
  assert (Hcred : credentialsPresent w1 = credentialsPresent w)
    by (unfold credentialsPresent; rewrite He; reflexivity).
  unfold run in *. rewrite Hmain in *.
  destruct (credentialsPresent w) eqn:Hc.
  - destruct (deliver_send date summary
                (Machine w1 (pre ++ [EvWrite (briefPathOf date) report])))
      as (url' & body' & Hdel); [exact Hcred|].
    rewrite Hdel in *. cbn [world trace] in *. rewrite Ht in *.
    destruct (telegram w) as [| |ok raw] eqn:Hr; [| |destruct ok];
      cbn [exitCode final trace world] in *;
      rewrite <- ?app_assoc in Hin; cbn [app] in Hin;
      apply (fetch_after_write _ _ _ _ _ _ _ Hpre) in Hin;
      repeat (apply elem_of_cons in Hin as [Hin|Hin]; [try discriminate|]);
      try (apply elem_of_nil in Hin; destruct Hin).
    injection Hin as <- <- <-.
    split; [reflexivity|]. split; [reflexivity|].
    exists date, (c :: priorities), report, pre.
    repeat (split; [first [assumption | reflexivity]|]).
    split; [rewrite <- !app_assoc; reflexivity|].
    rewrite Hf. apply lookup_insert_eq.
  - rewrite deliver_skip in Hin by exact Hcred.
    cbn [exitCode final trace world] in Hin.
    rewrite <- ?app_assoc in Hin. cbn [app] in Hin.
    apply (fetch_after_write _ _ _ _ _ _ _ Hpre) in Hin.
    repeat (apply elem_of_cons in Hin as [Hin|Hin]; [discriminate|]).
    apply elem_of_nil in Hin. destruct Hin.
Qed.

Lemma delivery_failure_after_report_witness :
  let w := sampleWorld sampleSecrets (Json false (lit "{}")) in
  exitCode (run w) = 1%Z
  /\ is_Some (files (world (final (run w))) !! briefPathOf (lit "2024-11-03")).
Proof.
  intros w.
  assert (Hin : exists url body,
             EvFetch url body (Json false (lit "{}")) ∈ trace (final (run w))).
  { remember (trace (final (run w))) as t eqn:Ht. vm_compute in Ht. subst t.
    do 2 eexists. do 2 apply list_elem_of_further. apply list_elem_of_here. }
  destruct Hin as (url & body & Hin).
  destruct (delivery_failure_after_report w url body _ Hin)
    as (Hc & _ & date & priorities & report & pre & Hd & _ & _ & _ & _ & Hf).
  split; [exact Hc|].
  assert (date = lit "2024-11-03") as ->.
  { vm_compute in Hd. injection Hd as <-. reflexivity. }
  rewrite Hf. eauto.
Defined.




(** ** The long-form report *)



(** ** Lines: [split] and [join] *)

Section Lines.

Variable sep : N.









End Lines.





(** ** The latest prior report *)

(** A pattern anchored with [^] and without the [m] flag matches at the
    start of the input only. *)
Lemma scan_Bol_later p s : forall c i,
  scan false (Bol :: p) (Some c) s i = None.
Proof.
  induction s as [|a s IH]; intros c i; cbn; [reflexivity|]. apply IH.
Qed.

Lemma test_Bol p s :
  test (RegExp (Bol :: p) false) s
  = match matchFrom false p None s with Some _ => true | None => false end.
Proof.
  unfold test, exec. cbn [source multiline].
  destruct s as [|a s]; cbn [scan matchFrom atLineStart];
    destruct (matchFrom false p None _); try reflexivity.
  rewrite scan_Bol_later. reflexivity.
Qed.

(** [/^\d{4}-\d{2}-\d{2}$/] accepts the date strings and nothing else. *)
Lemma test_dateRe d : test dateRe d = isDateString d.
Proof.
  unfold dateRe. rewrite test_Bol.
  destruct d as [|y1 [|y2 [|y3 [|y4 [|h1 [|m1 [|m2 [|h2 [|d1 [|d2 rest]]]]]]]]]];
    cbn [matchFrom exactly cset_mem atLineStart atLineEnd isDateString];
    rewrite ?(N.eqb_sym 45);
    repeat match goal with
    | |- context [match (if isDigit ?c then _ else _) with _ => _ end] =>
        destruct (isDigit c); cbn [andb]
    | |- context [match (if N.eqb ?c ?k then _ else _) with _ => _ end] =>
        destruct (N.eqb c k); cbn [andb]
    end; try reflexivity.
  all: destruct rest; reflexivity.
Qed.

Lemma startsWith_app p r : startsWith p (p ++ r) = true.
Proof. induction p as [|a p IH]; cbn; [reflexivity|]. rewrite N.eqb_refl. exact IH. Qed.

Lemma startsWith_inv p : forall s,
  startsWith p s = true -> s = p ++ drop (length p) s.
Proof.
  induction p as [|a p IH]; intros s H; [reflexivity|].
  destruct s as [|b s]; [discriminate|]. cbn in H.
  apply andb_prop in H as [E H]. apply N.eqb_eq in E. subst b.
  cbn. f_equal. apply IH, H.
Qed.

Lemma endsWith_inv suffix s :
  endsWith suffix s = true -> exists pre, s = pre ++ suffix.
Proof.
  unfold endsWith. intros H. apply startsWith_inv in H.
  exists (rev (drop (length (rev suffix)) (rev s))).
  rewrite <- (rev_involutive s) at 1. rewrite H at 1.
  rewrite rev_app_distr, rev_involutive. reflexivity.
Qed.

Lemma endsWith_app pre suffix : endsWith suffix (pre ++ suffix) = true.
Proof. unfold endsWith. rewrite rev_app_distr. apply startsWith_app. Qed.

Lemma replace_cases pat by_ : forall s,
  replace pat by_ s = s
  \/ exists a b, s = a ++ pat ++ b /\ replace pat by_ s = a ++ by_ ++ b.
Proof.
  induction s as [|c s IH].
  - cbn [replace]. destruct (startsWith pat []) eqn:E; [|left; reflexivity].
    right. exists [], (drop (length pat) []). split; [|reflexivity].
    apply startsWith_inv, E.
  - cbn [replace]. destruct (startsWith pat (c :: s)) eqn:E.
    + right. exists [], (drop (length pat) (c :: s)). split; [|reflexivity].
      apply startsWith_inv, E.
    + destruct IH as [IH|(a & b & Hs & Hr)].
      * left. rewrite IH. reflexivity.
      * right. exists (c :: a), b. rewrite Hs at 1. rewrite Hr. split; reflexivity.
Qed.

Lemma isDateString_chars d :
  isDateString d = true -> Forall (fun c => isDateChar c = true) d.
Proof.
  destruct d as [|y1 [|y2 [|y3 [|y4 [|h1 [|m1 [|m2 [|h2 [|d1 [|d2 [|? ?]]]]]]]]]]];
    try discriminate.
  cbn [isDateString]. intros H.
  do 9 (apply andb_prop in H as [H ?]).
  unfold isDateChar.
  repeat (apply List.Forall_cons; [|]); try apply List.Forall_nil;
    match goal with
    | E : isDigit ?c = true |- isDigit ?c || _ = true =>
        rewrite E; reflexivity
    | E : (?c =? 45)%N = true |- _ || (?c =? 45)%N = true =>
        rewrite E; apply orb_true_r
    end.
Qed.

Lemma replace_dateChars d rest :
  Forall (fun c => isDateChar c = true) d ->
  replace (lit ".md") [] (d ++ lit ".md" ++ rest) = d ++ rest.
Proof.
  induction 1 as [|c d Hc Hd IH].
  - reflexivity.
  - cbn [app replace].
    replace (startsWith (lit ".md") (c :: d ++ lit ".md" ++ rest)) with false.
    + rewrite IH. reflexivity.
    + change (lit ".md") with [46; 109; 100]%N. cbn [startsWith].
      destruct (N.eqb_spec 46 c) as [<-|]; [discriminate Hc|reflexivity].
Qed.

Lemma stem_app pre : stem (pre ++ lit ".md") = pre.
Proof.
  unfold stem. rewrite length_app. change (length (lit ".md")) with 3.
  replace (length pre + 3 - 3) with (length pre) by lia.
  rewrite take_app_length. reflexivity.
Qed.

(** On a name that ends with [.md], removing the first [.md] and testing
    the date pattern comes to testing the name without its extension. *)
Lemma dated_name f :
  endsWith (lit ".md") f = true ->
  test dateRe (replace (lit ".md") [] f) = isDateString (stem f)
  /\ (isDateString (stem f) = true -> replace (lit ".md") [] f = stem f).
Proof.
  intros He. destruct (endsWith_inv _ _ He) as [pre ->].
  rewrite stem_app, test_dateRe.
  assert (Hgood : isDateString pre = true ->
                  replace (lit ".md") [] (pre ++ lit ".md") = pre).
  { intros Hd. rewrite <- (app_nil_r (lit ".md")).
    rewrite replace_dateChars by (apply isDateString_chars, Hd).
    apply app_nil_r. }
  split; [|exact Hgood].
  destruct (isDateString pre) eqn:Hd; [rewrite Hgood; auto|].
  destruct (isDateString (replace _ _ _)) eqn:Hr; [exfalso|reflexivity].
  apply isDateString_chars in Hr as Hch.
  assert (Hlast : forall x y, x ++ [y] = pre ++ lit ".md" -> y = 100%N).
  { intros x y E. change (lit ".md") with ([46; 109]%N ++ [100%N]) in E.
    rewrite app_assoc in E. apply app_inj_tail in E as [_ ->]. reflexivity. }
  destruct (replace_cases (lit ".md") [] (pre ++ lit ".md"))
    as [E|(a & b & Hs & E)]; rewrite E in *.
  - rewrite Forall_app in Hch. destruct Hch as [_ Hch].
    apply Forall_inv_tail, Forall_inv_tail, Forall_inv in Hch. discriminate.
  - destruct (decide (b = [])) as [->|Hb].
    + rewrite !app_nil_r in *. apply app_inv_tail in Hs. subst a.
      congruence.
    + destruct (exists_last Hb) as (b' & y & ->).
      rewrite (Hlast (a ++ lit ".md" ++ b') y) in Hch
        by (rewrite Hs, <- !app_assoc; reflexivity).
      cbn [app] in Hch. rewrite !Forall_app in Hch.
      destruct Hch as (_ & _ & Hch). apply Forall_inv in Hch. discriminate.
Qed.

(** *** The order on strings *)

Lemma ltb_irrefl a : ltb a a = false.
Proof.
  induction a as [|x a IH]; [reflexivity|]. cbn.
  rewrite N.ltb_irrefl, N.eqb_refl, IH. reflexivity.
Qed.

Lemma ltb_total a : forall b, ltb a b = true \/ a = b \/ ltb b a = true.
Proof.
  induction a as [|x a IH]; intros [|y b]; cbn; auto.
  destruct (N.lt_total x y) as [H|[->|H]].
  - left. apply N.ltb_lt in H. rewrite H. reflexivity.
  - rewrite N.ltb_irrefl, N.eqb_refl. cbn.
    destruct (IH b) as [H|[->|H]]; auto.
  - do 2 right. apply N.ltb_lt in H. rewrite H. reflexivity.
Qed.

Lemma ltb_trans a : forall b c,
  ltb a b = true -> ltb b c = true -> ltb a c = true.
Proof.
  induction a as [|x a IH]; intros [|y b] [|z c]; cbn; try discriminate; auto.
  intros H1 H2.
  apply orb_prop in H1 as [H1|H1]; apply orb_prop in H2 as [H2|H2].
  - apply N.ltb_lt in H1, H2. replace (x <? z)%N with true; [reflexivity|].
    symmetry. apply N.ltb_lt. lia.
  - apply andb_prop in H2 as [E H2]. apply N.eqb_eq in E. subst z.
    rewrite H1. reflexivity.
  - apply andb_prop in H1 as [E H1]. apply N.eqb_eq in E. subst y.
    rewrite H2. reflexivity.
  - apply andb_prop in H1 as [E1 H1]. apply andb_prop in H2 as [E2 H2].
    apply N.eqb_eq in E1, E2. subst y z.
    rewrite N.eqb_refl, (IH b c H1 H2). apply orb_true_r.
Qed.

Lemma ltb_asym a b : ltb a b = true -> ltb b a = false.
Proof.
  intros H. destruct (ltb b a) eqn:E; [|reflexivity].
  rewrite <- (ltb_irrefl a). symmetry. exact (ltb_trans a b a H E).
Qed.

(** [a >= b >= c] gives [a >= c]. *)
Lemma geb_trans a b c :
  ltb a b = false -> ltb b c = false -> ltb a c = false.
Proof.
  intros H1 H2. destruct (ltb a c) eqn:E; [|reflexivity].
  destruct (ltb_total b a) as [H|[->|H]]; [|congruence|congruence].
  rewrite <- H2. symmetry. exact (ltb_trans b a c H E).
Qed.

(** *** The head of the sorted array *)

Lemma sortBy_head (l : list dated) :
  match sortBy byDateDesc l with
  | [] => l = []
  | x :: _ => x ∈ l /\ forall y, y ∈ l -> ltb (d x) (d y) = false
  end.
Proof.
  induction l as [|a l IH]; [reflexivity|].
  change (sortBy byDateDesc (a :: l))
    with (insertBy byDateDesc a (sortBy byDateDesc l)).
  destruct (sortBy byDateDesc l) as [|h t]; cbn [insertBy].
  - subst l. split; [left|]. intros y Hy.
    apply list_elem_of_singleton in Hy. subst y. apply ltb_irrefl.
  - destruct IH as [Hh Hmax]. unfold byDateDesc at 1.
    destruct (ltb (d a) (d h)) eqn:E; cbn [Z.leb Z.compare].
    + split; [right; exact Hh|]. intros y Hy.
      apply elem_of_cons in Hy as [->|Hy]; [apply ltb_asym, E|auto].
    + split; [left|]. intros y Hy.
      apply elem_of_cons in Hy as [->|Hy]; [apply ltb_irrefl|].
      exact (geb_trans _ _ _ E (Hmax y Hy)).
Qed.

(** The entries that survive the two filters of [findLatestBrief]. *)
Lemma dated_entries names x :
  x ∈ List.filter (fun x => test dateRe (d x))
        (map (fun f => Dated f (replace (lit ".md") [] f))
           (List.filter (endsWith (lit ".md")) names))
  <-> f x ∈ names /\ isReportName (f x) = true /\ d x = stem (f x).
Proof.
  rewrite list_elem_of_In, filter_In, in_map_iff. split.
  - intros [(g & <- & Hg) Ht]. apply filter_In in Hg as [Hg He].
    cbn [f d] in *. destruct (dated_name g He) as [Heq Hrep].
    rewrite Heq in Ht. unfold isReportName. rewrite He, Ht.
    rewrite list_elem_of_In. auto.
  - intros (Hin & Hr & Hd). unfold isReportName in Hr.
    apply andb_prop in Hr as [He Hs].
    destruct (dated_name (f x) He) as [Heq Hrep]. split.
    + exists (f x). split.
      * destruct x as [g dd]. cbn [f d] in *. rewrite Hrep by exact Hs.
        congruence.
      * apply filter_In. rewrite <- list_elem_of_In. auto.
    + rewrite Hd, <- (Hrep Hs), Heq. exact Hs.
Qed.

(** What [findLatestBrief] makes of a listing. *)
Lemma latestDated_spec dir names :
  match latestDated dir names with
  | Some p =>
      exists g, p = path_join dir g /\ g ∈ names /\ isReportName g = true
                /\ forall h, h ∈ names -> isReportName h = true ->
                             ltb (stem g) (stem h) = false
  | None => forall h, h ∈ names -> isReportName h = false
  end.
Proof.
  unfold latestDated.
  set (L := List.filter _ (map _ (List.filter _ names))).
  pose proof (sortBy_head L) as Hhead.
  destruct (sortBy byDateDesc L) as [|x t].
  - intros h Hh. destruct (isReportName h) eqn:E; [exfalso|reflexivity].
    assert (Hin : Dated h (stem h) ∈ L) by (apply dated_entries; auto).
    rewrite Hhead in Hin. apply elem_of_nil in Hin. exact Hin.
  - destruct Hhead as [Hx Hmax]. apply dated_entries in Hx as (Hin & Hr & Hd).
    exists (f x). repeat (split; [first [reflexivity | assumption]|]).
    intros h Hh Hrh. rewrite <- Hd.
    apply (Hmax (Dated h (stem h))). apply dated_entries. auto.
Qed.

(** Names of another shape play no part in the answer. *)
Lemma latestDated_ignores dir names :
  latestDated dir names = latestDated dir (List.filter isReportName names).
Proof.
  unfold latestDated.
  set (mk := fun f0 : str => Dated f0 (replace (lit ".md") [] f0)).
  set (keep := fun x : dated => test dateRe (d x)).
  assert (E : List.filter keep (map mk (List.filter (endsWith (lit ".md")) names))
              = List.filter keep
                  (map mk (List.filter (endsWith (lit ".md"))
                             (List.filter isReportName names)))).
  { induction names as [|g names IH]; [reflexivity|].
    cbn [List.filter]. unfold isReportName at 1.
    destruct (endsWith (lit ".md") g) eqn:He; cbn [andb map List.filter];
      [|exact IH].
    destruct (dated_name g He) as [Ht _].
    replace (keep (mk g)) with (isDateString (stem g)) by (symmetry; exact Ht).
    destruct (isDateString (stem g)) eqn:Hs; [|exact IH].
    cbn [List.filter]. rewrite He. cbn [map List.filter].
    replace (keep (mk g)) with true by (symmetry; exact Ht).
    f_equal. exact IH. }
  rewrite E. reflexivity.
Qed.

(** C4. [findLatestBrief] answers [null] when the directory is missing,
    and otherwise what [latestDated] makes of its listing.  On a listing
    without repetition the answer is the path of a listed name that is a
    date string followed by [.md] and whose date string no other such name
    exceeds in the order of strings; names of another shape play no part
    (the answer is the same once they are removed from the listing), and
    the answer is [null] exactly when no name has that shape, so on an
    empty listing.  In whatever order the directory lists [2024-01-01.md],
    [2024-02-15.md] and [notes.md], the answer is [2024-02-15.md]. *)
Theorem latest_prior_report (dir : str) :
  (forall st, present dir (world st) = false ->
              findLatestBrief dir st = (Ok None, st))
  /\ (forall st, present dir (world st) = true ->
                 findLatestBrief dir st
                 = (Ok (latestDated dir (entries dir (world st))), st))
  /\ (forall names, NoDup names ->
        match latestDated dir names with
        | Some p =>
            exists g, p = path_join dir g /\ g ∈ names
                      /\ isReportName g = true
                      /\ forall h, h ∈ names -> isReportName h = true ->
                                   ltb (stem g) (stem h) = false
        | None => forall h, h ∈ names -> isReportName h = false
        end)
  /\ (forall names,
        latestDated dir names
        = latestDated dir (List.filter isReportName names))
  /\ latestDated dir [] = None
  /\ (forall names, names ≡ₚ exampleNames ->
        latestDated dir names = Some (path_join dir (lit "2024-02-15.md"))).
Proof.
  split; [|split; [|split; [|split; [|split]]]].
  - intros st H. unfold findLatestBrief. mstep. fold (present dir (world st)).
    rewrite H. reflexivity.
  - intros st H. unfold findLatestBrief, readdirSync. mstep.
    fold (present dir (world st)). rewrite H. reflexivity.
  - intros names _. apply latestDated_spec.
  - apply latestDated_ignores.
  - reflexivity.
  - intros names Hp. pose proof (latestDated_spec dir names) as H.
    assert (Hb : lit "2024-02-15.md" ∈ names).
    { rewrite Hp. unfold exampleNames. set_solver. }
    destruct (latestDated dir names) as [p|].
    + destruct H as (g & -> & Hg & Hr & Hmax). f_equal. f_equal.
      rewrite Hp in Hg. unfold exampleNames in Hg.
      apply elem_of_cons in Hg as [->|Hg].
      { specialize (Hmax _ Hb eq_refl). vm_compute in Hmax. discriminate. }
      apply elem_of_cons in Hg as [->|Hg]; [reflexivity|].
      apply list_elem_of_singleton in Hg. subst g.
      vm_compute in Hr. discriminate.
    + specialize (H _ Hb). vm_compute in H. discriminate.
Qed.

Lemma latest_prior_report_witness :
  NoDup exampleNames
  /\ exists g, latestDated briefDir exampleNames = Some (path_join briefDir g)
               /\ isReportName g = true.
Proof.
  assert (Hnd : NoDup exampleNames) by compute_done.
  split; [exact Hnd|].
  destruct (latest_prior_report briefDir) as (_ & _ & Hspec & _).
  specialize (Hspec exampleNames Hnd).
  destruct (latestDated briefDir exampleNames) as [p|] eqn:E.
  - destruct Hspec as (g & -> & _ & Hr & _). eauto.
  - vm_compute in E. discriminate.
Defined.

(** ** The date of the day *)

Local Open Scope Z_scope.

Lemma DayFromYear_step y :
  DayFromYear (y + 1) = DayFromYear y + DaysInYear y.
Proof.
  unfold DayFromYear, DaysInYear.
  destruct (Z.eqb_spec (y mod 4) 0), (Z.eqb_spec (y mod 100) 0),
    (Z.eqb_spec (y mod 400) 0); cbn [negb];
    Z.div_mod_to_equations; lia.
Qed.

Lemma YearFromDay_spec dn :
  DayFromYear (YearFromDay dn) <= dn < DayFromYear (YearFromDay dn + 1).
Proof.
  unfold YearFromDay.
  set (y := 1970 + 400 * dn / 146097).
  assert (Hy : 146097 * (y - 1970) <= 400 * dn < 146097 * (y - 1970) + 146097).
  { unfold y. Z.div_mod_to_equations. lia. }
  clearbody y.
  assert (H1 : DayFromYear (y - 1) <= dn).
  { unfold DayFromYear. Z.div_mod_to_equations. lia. }
  assert (H2 : dn < DayFromYear (y + 2)).
  { unfold DayFromYear. Z.div_mod_to_equations. lia. }
  destruct (Z.ltb_spec dn (DayFromYear y)).
  - replace (y - 1 + 1) with y by lia. lia.
  - destruct (Z.leb_spec (DayFromYear (y + 1)) dn).
    + replace (y + 1 + 1) with (y + 2) by lia. lia.
    + lia.
Qed.

(** *** The calendar, as a specification *)

Lemma DayFromYear_daysBeforeYear y : DayFromYear y = daysBeforeYear y.
Proof.
  unfold DayFromYear, daysBeforeYear, leapYearsBefore.
  change ((1970 - 1) / 4 - (1970 - 1) / 100 + (1970 - 1) / 400) with 477.
  Z.div_mod_to_equations. lia.
Qed.

Lemma DaysInYear_leap y : DaysInYear y = if isLeapYear y then 366 else 365.
Proof.
  unfold DaysInYear, isLeapYear.
  destruct (Z.eqb_spec (y mod 4) 0), (Z.eqb_spec (y mod 100) 0),
    (Z.eqb_spec (y mod 400) 0); cbn; try reflexivity;
    exfalso; Z.div_mod_to_equations; lia.
Qed.

(** The year, month and day that ECMAScript gives a time value are the
    calendar date of its day number. *)
Lemma civil_of_time t :
  validDate (YearFromTime t) (MonthFromTime t + 1) (DateFromTime t)
  /\ dayNumber (YearFromTime t) (MonthFromTime t + 1) (DateFromTime t)
     = Day t.
Proof.
  pose proof (YearFromDay_spec (Day t)) as Hy.
  fold (YearFromTime t) in Hy.
  rewrite DayFromYear_step in Hy.
  unfold validDate, dayNumber, DateFromTime, MonthFromTime, InLeapYear,
    DayWithinYear.
  rewrite <- DayFromYear_daysBeforeYear.
  rewrite DaysInYear_leap in *.
  set (y := YearFromTime t) in *. set (dn := Day t) in *.
  set (base := DayFromYear y) in *. clearbody base dn. 
  unfold daysBeforeMonth, monthLength.
  destruct (isLeapYear y); cbn [Z.eqb Pos.eqb];
    repeat match goal with
    | |- context [?a <? ?b] => destruct (Z.ltb_spec a b)
    end;
    repeat match goal with
    | |- context [Z.pos ?p + 1] =>
        let v := eval vm_compute in (Z.pos p + 1) in
        change (Z.pos p + 1) with v
    | |- context [0 + 1] => change (0 + 1) with 1
    end;
    repeat match goal with
    | |- context [foldr Z.add 0 ?l] =>
        let v := eval vm_compute in (foldr Z.add 0 l) in
        change (foldr Z.add 0 l) with v
    end;
    lia.
Qed.

(** *** The ISO string *)

Lemma digitAt_spec n i :
  0 <= n ->
  isDigit (digitAt n i) = true
  /\ Z.of_N (digitAt n i) - 48 = (n / 10 ^ Z.of_nat i) mod 10.
Proof.
  intros Hn. unfold digitAt, isDigit.
  set (x := (n / 10 ^ Z.of_nat i) mod 10).
  assert (0 <= x < 10) by (apply Z.mod_pos_bound; lia).
  split.
  - apply andb_true_intro. split; apply N.leb_le; lia.
  - lia.
Qed.

Lemma padded4_spec n :
  0 <= n <= 9999 ->
  Forall (fun c => isDigit c = true) (padded 4 n)
  /\ decimalValue (padded 4 n) = n.
Proof.
  intros Hn. cbn [padded]. split.
  - repeat (apply List.Forall_cons; [apply digitAt_spec; lia|]).
    apply List.Forall_nil.
  - unfold decimalValue. cbn [fold_left].
    rewrite !(proj2 (digitAt_spec n _ ltac:(lia))).
    change (10 ^ Z.of_nat 3) with 1000. change (10 ^ Z.of_nat 2) with 100.
    change (10 ^ Z.of_nat 1) with 10. change (10 ^ Z.of_nat 0) with 1.
    Z.div_mod_to_equations. lia.
Qed.

Lemma padded2_spec n :
  0 <= n <= 99 ->
  Forall (fun c => isDigit c = true) (padded 2 n)
  /\ decimalValue (padded 2 n) = n.
Proof.
  intros Hn. cbn [padded]. split.
  - repeat (apply List.Forall_cons; [apply digitAt_spec; lia|]).
    apply List.Forall_nil.
  - unfold decimalValue. cbn [fold_left].
    rewrite !(proj2 (digitAt_spec n _ ltac:(lia))).
    change (10 ^ Z.of_nat 1) with 10. change (10 ^ Z.of_nat 0) with 1.
    Z.div_mod_to_equations. lia.
Qed.

(** Day numbers of the years written with four digits. *)
Lemma four_digit_year dn :
  DayFromYear 0 <= dn < DayFromYear 10000 -> 0 <= YearFromDay dn <= 9999.
Proof.
  intros H. pose proof (YearFromDay_spec dn) as Hy.
  set (y := YearFromDay dn) in *. clearbody y.
  change (DayFromYear 0) with (-719528) in H.
  change (DayFromYear 10000) with 2932897 in H.
  unfold DayFromYear in Hy. Z.div_mod_to_equations. lia.
Qed.

(** C9. For a clock reading whose instant six hours later lies in the
    years 0000 to 9999, [todayISO] returns a string that reads as a date
    YYYY-MM-DD: four, two and two decimal digits separated by dashes; the
    date it denotes is a date of the calendar, and its day number is the
    day number of the instant [now + 6 * 60 * 60 * 1000] milliseconds,
    that is, the calendar date of the instant shifted by six hours.  The
    result is a function of the clock reading alone. *)
Theorem today_is_utc_plus_six (now : Z) :
  -62167219200000 <= now + 6 * 60 * 60 * 1000 < 253402300800000 ->
  exists s y m dd,
    todayISO now = Some s
    /\ readsAsDate s y m dd
    /\ validDate y m dd
    /\ dayNumber y m dd = (now + 6 * 60 * 60 * 1000) / 86400000.
Proof.
  intros Hrange. set (t := now + 6 * 60 * 60 * 1000) in *.
  destruct (civil_of_time t) as [Hvalid Hday].
  assert (Hy : 0 <= YearFromTime t <= 9999).
  { apply four_digit_year. unfold Day, msPerDay.
    change (DayFromYear 0) with (-719528).
    change (DayFromYear 10000) with 2932897.
    Z.div_mod_to_equations. lia. }
  set (y := YearFromTime t) in *.
  set (m := MonthFromTime t + 1) in *.
  set (dd := DateFromTime t) in *.
  assert (Hm : 0 <= m <= 99) by (destruct Hvalid; lia).
  assert (Hd : 0 <= dd <= 99).
  { destruct Hvalid as [Hm' Hdd]. unfold monthLength in Hdd.
    destruct (isLeapYear y);
      destruct m as [|[[[|[]|]|[[]|[]|]|]|[[[]|[]|]|[[]|[]|]|]|]|]; lia. }
  exists (padded 4 y ++ lit "-" ++ padded 2 m ++ lit "-" ++ padded 2 dd),
    y, m, dd.
  split; [|split; [|split]].
  - unfold todayISO. fold t. unfold newDate.
    destruct (Z.leb_spec (Z.abs t) 8640000000000000); [|lia].
    unfold toISOString, isoYear. fold y m dd.
    replace ((0 <=? y) && (y <=? 9999)) with true
      by (symmetry; apply andb_true_intro; split; apply Z.leb_le; lia).
    reflexivity.
  - exists (padded 4 y), (padded 2 m), (padded 2 dd).
    destruct (padded4_spec y Hy) as [Fy Vy].
    destruct (padded2_spec m Hm) as [Fm Vm].
    destruct (padded2_spec dd Hd) as [Fd Vd].
    repeat (split; [first [reflexivity | assumption]|]).
    split; [|auto]. rewrite !Forall_app. auto.
  - exact Hvalid.
  - exact Hday.
Qed.

Lemma today_is_utc_plus_six_witness :
  -62167219200000 <= 1730656800000 + 6 * 60 * 60 * 1000 < 253402300800000
  /\ todayISO 1730656800000 = Some (lit "2024-11-04")
  /\ exists s y m dd,
       todayISO 1730656800000 = Some s /\ readsAsDate s y m dd
       /\ validDate y m dd /\ dayNumber y m dd = 20031.
Proof.
  assert (H : -62167219200000 <= 1730656800000 + 6 * 60 * 60 * 1000
              < 253402300800000) by lia.
  split; [exact H|]. split; [vm_compute; reflexivity|].
  exact (today_is_utc_plus_six 1730656800000 H).
Defined.

Local Close Scope Z_scope.

(** ** Sections of the source document *)

(** *** The matcher on the patterns of the script *)

Lemma greedy_ignoresPrev k cont :
  ignoresPrev cont -> ignoresPrev (greedy k cont).
Proof.
  intros Hc p1 p2 s. revert p1 p2.
  induction s as [|c s IH]; intros p1 p2; cbn; [apply Hc|].
  rewrite (Hc p1 p2). reflexivity.
Qed.

Lemma exactly_ignoresPrev n k cont :
  ignoresPrev cont -> ignoresPrev (exactly n k cont).
Proof.
  intros Hc. induction n as [|n IH]; intros p1 p2 s; cbn; [apply Hc|].
  reflexivity.
Qed.

Lemma matchFrom_ignoresPrev m p :
  Forall (fun t => t <> Bol) p -> ignoresPrev (matchFrom m p).
Proof.
  induction 1 as [|t p Ht Hp IH]; [intros p1 p2 s; reflexivity|].
  destruct t; try congruence; intros p1 p2 s; cbn [matchFrom].
  - rewrite (IH p1 p2). reflexivity.
  - reflexivity.
  - apply greedy_ignoresPrev, IH.
  - reflexivity.
  - apply exactly_ignoresPrev, IH.
Qed.

(** A greedy loop succeeds with the result of its continuation on some
    split of the input... *)
Lemma greedy_sound k cont : forall s prev r,
  greedy k cont prev s = Some r ->
  exists w s2 p', s = w ++ s2
                  /\ Forall (fun c => cset_mem k c = true) w
                  /\ cont p' s2 = Some r.
Proof.
  induction s as [|c s IH]; intros prev r H; cbn in H.
  - exists [], [], prev. auto.
  - destruct (cset_mem k c) eqn:E.
    + destruct (greedy k cont (Some c) s) as [r'|] eqn:G.
      * injection H as <-. destruct (IH _ _ G) as (w & s2 & p' & -> & Hw & Hc).
        exists (c :: w), s2, p'. auto.
      * exists [], (c :: s), prev. auto.
    + exists [], (c :: s), prev. auto.
Qed.

(** ... and it succeeds as soon as the continuation does on one split. *)
Lemma greedy_complete k cont :
  ignoresPrev cont ->
  forall w s2 prev p',
    Forall (fun c => cset_mem k c = true) w ->
    is_Some (cont p' s2) ->
    is_Some (greedy k cont prev (w ++ s2)).
Proof.
  intros Hi w s2 prev p' Hw Hc. revert prev.
  induction Hw as [|c w Hc' Hw IH]; intros prev.
  - cbn [app]. destruct s2 as [|c s2]; cbn.
    + rewrite (Hi prev p'). exact Hc.
    + destruct (cset_mem k c); [|rewrite (Hi prev p'); exact Hc].
      destruct (greedy k cont (Some c) s2); [eauto|].
      rewrite (Hi prev p'). exact Hc.
  - cbn. rewrite Hc'. destruct (IH (Some c)) as [r ->]. eauto.
Qed.

Lemma matchFrom_literals_sound m l p : forall s prev r,
  matchFrom m (literals l ++ p) prev s = Some r ->
  exists s2 p', s = l ++ s2 /\ matchFrom m p p' s2 = Some r.
Proof.
  induction l as [|a l IH]; intros s prev r H.
  - exists s, prev. auto.
  - cbn in H. destruct s as [|c s]; [discriminate|].
    destruct (N.eqb_spec a c) as [->|]; [|discriminate].
    destruct (IH _ _ _ H) as (s2 & p' & -> & Hp). exists s2, p'. auto.
Qed.

Lemma matchFrom_literals_complete m l p :
  ignoresPrev (matchFrom m p) ->
  forall s2 prev, matchFrom m (literals l ++ p) prev (l ++ s2)
                  = matchFrom m p prev s2.
Proof.
  intros Hi. induction l as [|a l IH]; intros s2 prev; [reflexivity|].
  cbn. rewrite N.eqb_refl, IH. apply Hi.
Qed.

(** Where the pattern of a heading matches: at the start of a line,
    [##], whitespace, the label, whitespace, and the end of a line. *)
Lemma heading_match_sound label prev s r :
  matchFrom true (headingPattern label) prev s = Some r ->
  atLineStart true prev = true
  /\ exists w w', s = [35; 35]%N ++ w ++ label ++ w' ++ r
                  /\ w <> [] /\ allSpace w /\ allSpace w'
                  /\ atLineEnd true r = true.
Proof.
  unfold headingPattern. cbn [app matchFrom cset_mem].
  destruct (atLineStart true prev); [|discriminate].
  destruct s as [|c1 s]; [discriminate|].
  destruct (N.eqb_spec 35 c1) as [<-|]; [|discriminate].
  destruct s as [|c2 s]; [discriminate|].
  destruct (N.eqb_spec 35 c2) as [<-|]; [|discriminate].
  destruct s as [|c3 s]; [discriminate|].
  destruct (isSpace c3) eqn:E3; [|discriminate].
  intros H. split; [reflexivity|].
  apply greedy_sound in H as (w & s2 & p' & -> & Hw & H).
  change (map _ label ++ [Star CSpace; Eol])
    with (literals label ++ [Star CSpace; Eol]) in H.
  apply matchFrom_literals_sound in H as (s3 & p'' & -> & H).
  cbn [matchFrom] in H.
  apply greedy_sound in H as (w' & s4 & p3 & -> & Hw' & H).
  cbn [matchFrom] in H. destruct (atLineEnd true s4) eqn:Ee; [|discriminate].
  injection H as <-.
  exists (c3 :: w), w'. repeat split; auto; try discriminate.
  constructor; assumption.
Qed.

Lemma heading_match_complete label prev w w' r :
  atLineStart true prev = true ->
  w <> [] -> allSpace w -> allSpace w' -> atLineEnd true r = true ->
  is_Some (matchFrom true (headingPattern label) prev
             ([35; 35]%N ++ w ++ label ++ w' ++ r)).
Proof.
  intros Hs Hne Hw Hw' Hr.
  unfold headingPattern. cbn [app matchFrom cset_mem]. rewrite Hs.
  destruct w as [|c w]; [congruence|]. inversion Hw as [|? ? Hc Hw0]; subst.
  cbn [app N.eqb Pos.eqb]. rewrite Hc.
  change (map _ label ++ [Star CSpace; Eol])
    with (literals label ++ [Star CSpace; Eol]).
  assert (Hi2 : ignoresPrev (matchFrom true [Eol])).
  { apply matchFrom_ignoresPrev. repeat constructor; discriminate. }
  assert (Hi1 : ignoresPrev (matchFrom true [Star CSpace; Eol])).
  { apply matchFrom_ignoresPrev. repeat constructor; discriminate. }
  assert (Hi0 : ignoresPrev
                  (matchFrom true (literals label ++ [Star CSpace; Eol]))).
  { apply matchFrom_ignoresPrev. apply Forall_app. split.
    - unfold literals. apply Forall_forall. intros t Ht.
      apply list_elem_of_In, in_map_iff in Ht as (a & <- & _). discriminate.
    - repeat constructor; discriminate. }
  apply (greedy_complete CSpace _ Hi0 w _ _ None Hw0).
  rewrite matchFrom_literals_complete by exact Hi1.
  cbn [matchFrom].
  apply (greedy_complete CSpace _ Hi2 w' _ _ None Hw').
  cbn [matchFrom]. rewrite Hr. eauto.
Qed.

(** *** The search for a match *)

Lemma prevAfter_cons prev c a : prevAfter prev (c :: a) = prevAfter (Some c) a.
Proof. unfold prevAfter. destruct a as [|x a]; [reflexivity|]. cbn.
  destruct (last (x :: a)) eqn:E; [reflexivity|].
  apply last_None in E. discriminate. Qed.

(** A successful search stops at the first position where the pattern
    matches. *)
Lemma scan_found m p : forall s prev i j len,
  scan m p prev s i = Some (Matched j len) ->
  exists a b r,
    s = a ++ b /\ j = i + length a
    /\ matchFrom m p (prevAfter prev a) b = Some r
    /\ len = length b - length r
    /\ forall a' b', s = a' ++ b' -> length a' < length a ->
                     matchFrom m p (prevAfter prev a') b' = None.
Proof.
  induction s as [|c s IH]; intros prev i j len H; cbn [scan] in H.
  - destruct (matchFrom m p prev []) as [r|] eqn:E; [|discriminate].
    injection H as <- <-. exists [], [], r.
    split; [reflexivity|]. split; [cbn; lia|]. split; [exact E|].
    split; [reflexivity|]. intros a' b' _ Hl. cbn in Hl. lia.
  - destruct (matchFrom m p prev (c :: s)) as [r|] eqn:E.
    + injection H as <- <-. exists [], (c :: s), r.
      split; [reflexivity|]. split; [cbn; lia|]. split; [exact E|].
      split; [reflexivity|]. intros a' b' _ Hl. cbn in Hl. lia.
    + destruct (IH _ _ _ _ H) as (a & b & r & -> & -> & Hm & -> & Hmin).
      exists (c :: a), b, r. rewrite prevAfter_cons.
      split; [reflexivity|]. split; [cbn; lia|]. split; [exact Hm|].
      split; [reflexivity|].
      intros a' b' Hs Hl. destruct a' as [|c' a'].
      * cbn in Hs. subst b'. exact E.
      * cbn in Hs. injection Hs as <- Hs. rewrite prevAfter_cons.
        apply Hmin; [exact Hs|]. cbn in Hl. lia.
Qed.

(** A failed search means the pattern matches nowhere. *)
Lemma scan_none m p : forall s prev i,
  scan m p prev s i = None ->
  forall a b, s = a ++ b -> matchFrom m p (prevAfter prev a) b = None.
Proof.
  induction s as [|c s IH]; intros prev i H a b Hs; cbn [scan] in H.
  - destruct a; [|discriminate]. cbn in Hs. subst b.
    change (prevAfter prev []) with prev.
    destruct (matchFrom m p prev []); [discriminate|reflexivity].
  - destruct (matchFrom m p prev (c :: s)) eqn:E; [discriminate|].
    destruct a as [|c' a].
    + cbn in Hs. subst b. exact E.
    + cbn in Hs. injection Hs as <- Hs. rewrite prevAfter_cons.
      exact (IH _ _ H a b Hs).
Qed.

Lemma scan_index_ge m p : forall s prev i r,
  scan m p prev s i = Some r -> i <= index r.
Proof.
  induction s as [|c s IH]; intros prev i r H; cbn [scan] in H.
  - destruct (matchFrom m p prev []); [|discriminate].
    injection H as <-. cbn. lia.
  - destruct (matchFrom m p prev (c :: s)).
    + injection H as <-. cbn. lia.
    + apply IH in H. lia.
Qed.

(** *** The next heading *)

Lemma greedy_total k cont :
  (forall p s, is_Some (cont p s)) ->
  forall s prev, is_Some (greedy k cont prev s).
Proof.
  intros Hc. induction s as [|c s IH]; intros prev; cbn; [apply Hc|].
  destruct (cset_mem k c); [|apply Hc].
  destruct (IH (Some c)) as [r ->]. eauto.
Qed.

Lemma nextHeading_match prev s :
  match matchFrom true (source nextHeading) prev s with
  | Some _ => true
  | None => false
  end = atLineStart true prev && startsHeading s.
Proof.
  cbn [nextHeading source matchFrom cset_mem].
  destruct (atLineStart true prev); [|reflexivity]. cbn [andb].
  destruct s as [|c1 [|c2 [|c3 s]]]; cbn [startsHeading]; try reflexivity.
  - destruct (35 =? c1)%N; reflexivity.
  - destruct (35 =? c1)%N; [|reflexivity]. destruct (35 =? c2)%N; reflexivity.
  - destruct (35 =? c1)%N; [|reflexivity].
    destruct (35 =? c2)%N; [|reflexivity].
    destruct (isSpace c3); [|reflexivity].
    match goal with
    | |- context [greedy ?k ?cont ?p ?t] =>
        destruct (greedy_total k cont (fun _ _ => ltac:(eauto)) t p) as [r ->]
    end.
    reflexivity.
Qed.

(** [rest.search(/^##\s+/m)] and the slice it commands give the text up to
    the next line that begins with [##] and a whitespace character. *)
Lemma scan_nextHeading : forall s prev i,
  match scan true (source nextHeading) prev s i with
  | None => s
  | Some m => take (index m - i) s
  end = untilNextHeading (atLineStart true prev) s.
Proof.
  induction s as [|c s IH]; intros prev i.
  - cbn [scan]. pose proof (nextHeading_match prev []) as H.
    destruct (matchFrom true (source nextHeading) prev []); [|reflexivity].
    rewrite andb_false_r in H. discriminate.
  - cbn [scan untilNextHeading].
    pose proof (nextHeading_match prev (c :: s)) as H.
    destruct (matchFrom true (source nextHeading) prev (c :: s)).
    + rewrite <- H. cbn [index]. rewrite Nat.sub_diag. reflexivity.
    + rewrite <- H. specialize (IH (Some c) (S i)). cbn [atLineStart andb] in IH.
      rewrite <- IH.
      destruct (scan true (source nextHeading) (Some c) s (S i)) as [m|] eqn:E;
        [|reflexivity].
      apply scan_index_ge in E.
      replace (index m - i) with (S (index m - S i)) by lia. reflexivity.
Qed.

Lemma search_nextHeading rest :
  match search nextHeading rest with
  | None => rest
  | Some n => sliceTo n rest
  end = untilNextHeading true rest.
Proof.
  unfold search, exec, sliceTo. cbn [multiline nextHeading].
  pose proof (scan_nextHeading rest None 0) as H. cbn [atLineStart] in H.
  rewrite <- H. change (source nextHeading)
    with [Bol; One (CChar 35%N); One (CChar 35%N); Plus CSpace].
  destruct (scan true _ None rest 0) as [m|]; cbn [fmap option_fmap option_map];
    [rewrite Nat.sub_0_r|]; reflexivity.
Qed.

(** *** Whitespace is trimmed away *)

Lemma not_space_hash : isSpace 35 = false.
Proof. reflexivity. Qed.

Lemma space_not_heading c s : isSpace c = true -> startsHeading (c :: s) = false.
Proof.
  intros Hc. destruct s as [|c2 [|c3 s]]; cbn [startsHeading]; try reflexivity.
  destruct (N.eqb_spec 35 c) as [<-|]; [|reflexivity].
  rewrite not_space_hash in Hc. discriminate.
Qed.

Lemma lineTerminator_space c : isLineTerminator c = true -> isSpace c = true.
Proof. intros H. unfold isSpace. rewrite H. apply orb_true_r. Qed.

Lemma untilNextHeading_lineEnd r f :
  atLineEnd true r = true -> untilNextHeading f r = untilNextHeading true r.
Proof.
  destruct r as [|c r]; [reflexivity|]. cbn [atLineEnd andb]. intros Hc.
  cbn [untilNextHeading].
  rewrite (space_not_heading c r (lineTerminator_space c Hc)).
  rewrite !andb_false_r. reflexivity.
Qed.

Lemma untilNextHeading_space w r : forall f,
  allSpace w -> atLineEnd true r = true ->
  untilNextHeading f (w ++ r) = w ++ untilNextHeading true r.
Proof.
  induction w as [|c w IH]; intros f Hw Hr.
  - apply untilNextHeading_lineEnd, Hr.
  - inversion Hw as [|? ? Hc Hw']; subst. cbn [app untilNextHeading].
    rewrite (space_not_heading c _ Hc), andb_false_r.
    rewrite IH by assumption. reflexivity.
Qed.

Lemma trimStart_space w x : allSpace w -> trimStart (w ++ x) = trimStart x.
Proof.
  induction 1 as [|c w Hc Hw IH]; [reflexivity|]. cbn. rewrite Hc. exact IH.
Qed.

Lemma trim_space w x : allSpace w -> trim (w ++ x) = trim x.
Proof. intros Hw. unfold trim. rewrite trimStart_space by exact Hw. reflexivity. Qed.

(** *** What [extractSection] returns *)

Lemma prevAfter_None a : prevAfter None a = last a.
Proof. unfold prevAfter. destruct (last a); reflexivity. Qed.

(** [extractSection] returns the empty string when the heading occurs
    nowhere, and otherwise the text between the label of its first
    occurrence and the next line that begins with [##] and whitespace,
    trimmed. *)
Lemma extractSection_spec md label :
  (extractSection md label = Some []
   /\ forall pre w after, ~ HeadingAt md label pre w after)
  \/ exists pre w after,
       FirstHeadingAt md label pre w after
       /\ extractSection md label
          = Some (trim (untilNextHeading false after)).
Proof.
  unfold extractSection. rewrite newRegExp_heading.
  cbn [mbind option_bind]. unfold exec. cbn [source multiline].
  destruct (scan true (headingPattern label) None md 0) as [[j len]|] eqn:E.
  - right. apply scan_found in E as (a & b & r & -> & -> & Hm & -> & Hmin).
    rewrite prevAfter_None in Hm.
    apply heading_match_sound in Hm
      as (Hs & w & w' & -> & Hne & Hw & Hw' & Hr).
    exists a, w, (w' ++ r). split; [split|].
    + split; [reflexivity|]. repeat (split; [assumption|]). eauto.
    + intros pre' w2 after2 (Hmd & Hs2 & Hne2 & Hw2 & w2' & r2 & -> & Hw2' & Hr2).
      destruct (Nat.le_gt_cases (length a) (length pre')) as [|Hlt]; [assumption|].
      specialize (Hmin pre' _ Hmd Hlt). rewrite prevAfter_None in Hmin.
      destruct (heading_match_complete label (last pre') w2 w2' r2)
        as [x Hx]; try assumption.
      rewrite Hx in Hmin. discriminate.
    + cbn [index matchLength]. f_equal.
      replace (sliceFrom _ _) with r.
      * rewrite search_nextHeading.
        rewrite (untilNextHeading_space w' r false Hw' Hr).
        rewrite trim_space by exact Hw'. reflexivity.
      * unfold sliceFrom.
        set (b0 := [35; 35]%N ++ w ++ label ++ w').
        replace ([35; 35]%N ++ w ++ label ++ w' ++ r) with (b0 ++ r)
          by (unfold b0; rewrite <- !app_assoc; reflexivity).
        rewrite app_assoc, length_app.
        replace (0 + length a + (length b0 + length r - length r))
          with (length (a ++ b0)) by (rewrite length_app; lia).
        rewrite drop_app_length. reflexivity.
  - left. split; [reflexivity|].
    intros pre w after (Hmd & Hs & Hne & Hw & w' & r & -> & Hw' & Hr).
    pose proof (scan_none _ _ _ _ _ E pre _ Hmd) as Hn.
    rewrite prevAfter_None in Hn.
    destruct (heading_match_complete label (last pre) w w' r)
      as [x Hx]; try assumption.
    rewrite Hx in Hn. discriminate.
Qed.

(** *** The reading line by line *)

Lemma lineStartAfter_cons f c a :
  lineStartAfter f (c :: a) = lineStartAfter (isLineTerminator c) a.
Proof.
  unfold lineStartAfter. destruct a as [|x a]; [reflexivity|]. cbn.
  destruct (last (x :: a)) eqn:E; [reflexivity|].
  apply last_None in E. discriminate.
Qed.

Lemma lineStartAfter_true a : lineStartAfter true a = atLineStart true (last a).
Proof. unfold lineStartAfter. destruct (last a); reflexivity. Qed.

(** [sectionFrom] stops at the first line that is a heading line. *)
Lemma sectionFrom_spec label : forall s f,
  match sectionFrom f label s with
  | Some x =>
      exists a b,
        s = a ++ b /\ lineStartAfter f a = true
        /\ isHeadingLine label (lineOf b) = true
        /\ x = trim (untilNextHeading false (afterLine b))
        /\ forall a' b', s = a' ++ b' -> length a' < length a ->
                         lineStartAfter f a' = true ->
                         isHeadingLine label (lineOf b') = false
  | None =>
      forall a b, s = a ++ b -> lineStartAfter f a = true ->
                  isHeadingLine label (lineOf b) = false
  end.
Proof.
  induction s as [|c s IH]; intros f.
  - cbn [sectionFrom lineOf]. destruct (f && isHeadingLine label []) eqn:E.
    + apply andb_prop in E as [-> E]. exists [], [].
      split; [reflexivity|]. split; [reflexivity|]. split; [exact E|].
      split; [reflexivity|]. intros a' b' _ Hl. cbn in Hl. lia.
    + intros a b Hs Hf. destruct a; [|discriminate]. cbn in Hs. subst b.
      cbn in Hf. subst f. exact E.
  - cbn [sectionFrom].
    destruct (f && isHeadingLine label (lineOf (c :: s))) eqn:E.
    + apply andb_prop in E as [-> E]. exists [], (c :: s).
      split; [reflexivity|]. split; [reflexivity|]. split; [exact E|].
      split; [reflexivity|]. intros a' b' _ Hl. cbn in Hl. lia.
    + specialize (IH (isLineTerminator c)).
      destruct (sectionFrom (isLineTerminator c) label s) as [x|].
      * destruct IH as (a & b & -> & Hf & Hh & -> & Hmin).
        exists (c :: a), b. rewrite lineStartAfter_cons.
        split; [reflexivity|]. split; [exact Hf|]. split; [exact Hh|].
        split; [reflexivity|].
        intros a' b' Hs Hl Hf'. destruct a' as [|c' a'].
        -- cbn in Hs. subst b'. cbn in Hf'. subst f. exact E.
        -- cbn in Hs. injection Hs as <- Hs.
           rewrite lineStartAfter_cons in Hf'.
           apply (Hmin a' b' Hs); [cbn in Hl; lia|exact Hf'].
      * intros a b Hs Hf. destruct a as [|c' a].
        -- cbn in Hs. subst b. cbn in Hf. subst f. exact E.
        -- cbn in Hs. injection Hs as <- Hs.
           rewrite lineStartAfter_cons in Hf. exact (IH a b Hs Hf).
Qed.

Lemma line_and_rest s : s = lineOf s ++ afterLine s.
Proof.
  induction s as [|c s IH]; [reflexivity|]. cbn.
  destruct (isLineTerminator c); [reflexivity|]. cbn. f_equal. exact IH.
Qed.

Lemma lineOf_oneLine s : oneLine (lineOf s).
Proof.
  induction s as [|c s IH]; cbn; [constructor|].
  destruct (isLineTerminator c) eqn:E; constructor; assumption.
Qed.

Lemma afterLine_lineEnd s : atLineEnd true (afterLine s) = true.
Proof.
  induction s as [|c s IH]; cbn; [reflexivity|].
  destruct (isLineTerminator c) eqn:E; [cbn; exact E|exact IH].
Qed.

Lemma lineOf_app x y : oneLine x -> lineOf (x ++ y) = x ++ lineOf y.
Proof.
  induction 1 as [|c x Hc Hx IH]; [reflexivity|]. cbn. rewrite Hc, IH.
  reflexivity.
Qed.

Lemma afterLine_app x y : oneLine x -> afterLine (x ++ y) = afterLine y.
Proof.
  induction 1 as [|c x Hc Hx IH]; [reflexivity|]. cbn. rewrite Hc. exact IH.
Qed.

(** Whitespace that runs to the end of a line: the part on the line is
    whitespace, and the rest begins at the end of that line. *)
Lemma lineOf_space w r :
  allSpace w -> atLineEnd true r = true -> allSpace (lineOf (w ++ r)).
Proof.
  induction 1 as [|c w Hc Hw IH]; intros Hr.
  - destruct r as [|c r]; cbn [app lineOf]; [constructor|].
    cbn [atLineEnd andb] in Hr. rewrite Hr. constructor.
  - cbn [app lineOf]. destruct (isLineTerminator c); [constructor|].
    constructor; [exact Hc|exact (IH Hr)].
Qed.

Lemma leadingSpaces_take j t :
  j <= leadingSpaces t -> allSpace (take j t) /\ length (take j t) = j.
Proof.
  revert t. induction j as [|j IH]; intros t Hj.
  - split; [constructor|reflexivity].
  - destruct t as [|c t]; [cbn in Hj; lia|]. cbn in Hj.
    destruct (isSpace c) eqn:E; [|lia].
    destruct (IH t ltac:(lia)) as [Ha Hl]. cbn. split.
    + constructor; assumption.
    + rewrite Hl. reflexivity.
Qed.

Lemma leadingSpaces_app w t : allSpace w -> length w <= leadingSpaces (w ++ t).
Proof.
  induction 1 as [|c w Hc Hw IH]; cbn; [lia|]. rewrite Hc. lia.
Qed.

Lemma forallb_allSpace w : forallb isSpace w = true <-> allSpace w.
Proof.
  unfold allSpace. rewrite List.forallb_forall, Forall_forall.
  split; intros H x Hx; apply H; apply list_elem_of_In; exact Hx.
Qed.

Lemma oneLine_sub x y : oneLine (x ++ y) -> oneLine x /\ oneLine y.
Proof. apply Forall_app. Qed.

(** A heading line at [b] is an occurrence of the heading, on one line. *)
Lemma headingLine_sound label b :
  isHeadingLine label (lineOf b) = true ->
  exists w w',
    b = [35; 35]%N ++ w ++ label ++ w' ++ afterLine b
    /\ w <> [] /\ allSpace w /\ allSpace w'.
Proof.
  intros H. pose proof (line_and_rest b) as Hb.
  destruct (lineOf b) as [|c1 [|c2 t]] eqn:El; try discriminate.
  cbn [isHeadingLine] in H.
  apply andb_prop in H as [H12 H]. apply andb_prop in H12 as [H1 H2].
  apply N.eqb_eq in H1, H2. subst c1 c2.
  apply existsb_exists in H as (j & Hj & H).
  apply in_seq in Hj. apply andb_prop in H as [Hs Hw'].
  apply startsWith_inv in Hs.
  destruct (leadingSpaces_take j t ltac:(lia)) as [Hw Hlen].
  exists (take j t), (drop (j + length label) t).
  split; [|split; [|split]].
  - rewrite Hb at 1. cbn [app]. do 2 f_equal.
    rewrite <- (take_drop j t) at 1. rewrite <- !app_assoc. f_equal.
    rewrite Hs at 1. rewrite <- app_assoc. f_equal.
    rewrite drop_drop. reflexivity.
  - intros E. rewrite E in Hlen. cbn in Hlen. lia.
  - exact Hw.
  - apply forallb_allSpace, Hw'.
Qed.

(** An occurrence of the heading on one line makes a heading line. *)
Lemma headingLine_complete label w w' r :
  oneLine label -> w <> [] -> allSpace w -> oneLine w -> allSpace w' ->
  atLineEnd true r = true ->
  isHeadingLine label (lineOf ([35; 35]%N ++ w ++ label ++ w' ++ r)) = true.
Proof.
  intros Hl Hne Hw Hw1 Hw' Hr.
  rewrite (lineOf_app [35; 35]%N) by (repeat constructor).
  rewrite (lineOf_app w) by exact Hw1.
  rewrite (lineOf_app label) by exact Hl.
  cbn [app isHeadingLine N.eqb Pos.eqb andb].
  apply existsb_exists. exists (length w). split.
  - apply in_seq. pose proof (leadingSpaces_app w (label ++ lineOf (w' ++ r)) Hw).
    destruct w; [congruence|]. cbn [length] in *. lia.
  - rewrite drop_app_length. rewrite startsWith_app. cbn [andb].
    rewrite app_assoc. rewrite <- length_app, drop_app_length.
    apply forallb_allSpace, lineOf_space; assumption.
Qed.

Lemma trim_after_line y :
  allSpace (lineOf y) ->
  trim (untilNextHeading false y) = trim (untilNextHeading false (afterLine y)).
Proof.
  intros Hs. rewrite (line_and_rest y) at 1.
  rewrite (untilNextHeading_space _ _ false Hs (afterLine_lineEnd y)).
  rewrite trim_space by exact Hs.
  rewrite (untilNextHeading_lineEnd _ false (afterLine_lineEnd y)).
  reflexivity.
Qed.

(** Away from the defect the code and the reading line by line agree:
    when the label holds no line terminator and no occurrence of the
    heading has a line break between [##] and the label, [extractSection]
    returns the section the specification describes, and the empty string
    when the document has no heading line for the label. *)
Lemma extractSection_by_lines md label :
  oneLine label ->
  (forall pre w after, HeadingAt md label pre w after -> oneLine w) ->
  extractSection md label = Some (default [] (sectionByLines md label)).
Proof.
  intros Hl Hone. unfold sectionByLines.
  pose proof (sectionFrom_spec label md true) as Hspec.
  destruct (extractSection_spec md label)
    as [[E Hno]|(pre & w & after & [Hat Hmin] & E)]; rewrite E; clear E.
  - destruct (sectionFrom true label md) as [x|]; [exfalso|reflexivity].
    destruct Hspec as (a & b & Hmd & Hf & Hh & _).
    apply headingLine_sound in Hh as (w & w' & Hb & Hne & Hw & Hw').
    apply (Hno a w (w' ++ afterLine b)).
    split; [rewrite Hmd, Hb at 1; reflexivity|].
    rewrite <- lineStartAfter_true. split; [exact Hf|].
    split; [exact Hne|]. split; [exact Hw|].
    exists w', (afterLine b). auto using afterLine_lineEnd.
  - pose proof (Hone _ _ _ Hat) as Hw1.
    pose proof Hat as (Hmd & Hs & Hne & Hw & w' & r & -> & Hw' & Hr).
    pose proof (headingLine_complete label w w' r Hl Hne Hw Hw1 Hw' Hr)
      as Hline.
    rewrite <- lineStartAfter_true in Hs.
    destruct (sectionFrom true label md) as [x|].
    + destruct Hspec as (a & b & Hmd2 & Hf & Hh & -> & Hmin2).
      assert (Hlen : length a = length pre).
      { apply Nat.le_antisymm.
        - destruct (Nat.le_gt_cases (length a) (length pre)) as [|Hlt];
            [assumption|].
          rewrite (Hmin2 pre _ Hmd Hlt Hs) in Hline. discriminate.
        - apply headingLine_sound in Hh as (w2 & w2' & Hb & Hne2 & Hw2 & Hw2').
          apply (Hmin a w2 (w2' ++ afterLine b)).
          split; [rewrite Hmd2, Hb at 1; reflexivity|].
          rewrite <- lineStartAfter_true. split; [exact Hf|].
          split; [exact Hne2|]. split; [exact Hw2|].
          exists w2', (afterLine b). auto using afterLine_lineEnd. }
      rewrite Hmd2 in Hmd. apply app_inj_1 in Hmd as [_ ->]; [|exact Hlen].
      cbn [default from_option id]. f_equal.
      rewrite (afterLine_app [35; 35]%N) by (repeat constructor).
      rewrite (afterLine_app w) by exact Hw1.
      rewrite (afterLine_app label) by exact Hl.
      apply trim_after_line, lineOf_space; assumption.
    + rewrite (Hspec pre _ Hmd Hs) in Hline. discriminate.
Qed.

(** *** The two claims at their failing inputs *)

(** C1, at the failing input. The document has the heading line
    [## Notes], followed by [bar]; read line by line, its section is
    [bar].  [extractSection] returns [foo]: in the pattern the whitespace
    after [##] is [\s+], which crosses the line break, so the first match
    is [##] on the first line together with [Notes] on the second. *)
Theorem heading_matched_across_lines :
  sectionByLines crossLineDoc notesLabel = Some (lit "bar")
  /\ extractSection crossLineDoc notesLabel = Some (lit "foo").
Proof. split; vm_compute; reflexivity. Qed.

(** C8, at the failing input. The document has no heading line for
    [Blockers / Risks]: its [##] stands alone on a line.  [extractSection]
    returns [none], not the empty string, and the report shows that text in
    the place of the placeholder. *)
Theorem heading_found_without_heading_line :
  sectionByLines strayMarkerDoc blockersLabel = None
  /\ extractSection strayMarkerDoc blockersLabel = Some (lit "none")
  /\ orElse (lit "none") (placeholder Blockers) = lit "none".
Proof. repeat split; vm_compute; reflexivity. Qed.

(** ** A run from end to end *)

(** A document with the priorities heading alone: the report shows the
    two priorities and the placeholders of the other sections, the summary
    carries the two priorities, and with a truthy reply of the endpoint the
    run exits with status 0 after one request. *)
Example end_to_end :
  let md := lit "## Today " ++ emdash ++ lit " Top Priorities (in order)" ++ nl
            ++ lit "- Ship X" ++ nl ++ lit "- Fix Y" in
  let w := {| files := {[ prioritiesPath := md ]}; dirs := {[ lit "ops" ]};
              env := sampleSecrets; clock := 1730616000123;
              telegram := Json true (lit "{}") |} in
  extractSection md topLabel = Some (lit "- Ship X" ++ nl ++ lit "- Fix Y")
  /\ extractSection md blockersLabel = Some []
  /\ exitCode (run w) = 0%Z
  /\ files (world (final (run w))) !! briefPathOf (lit "2024-11-03")
     = Some (managerReport (lit "2024-11-03") (lit "N/A")
               (lit "- Ship X" ++ nl ++ lit "- Fix Y") [] [] [])
  /\ exists url body,
       trace (final (run w))
       = [EvMkdir briefDir;
          EvWrite (briefPathOf (lit "2024-11-03"))
            (managerReport (lit "2024-11-03") (lit "N/A")
               (lit "- Ship X" ++ nl ++ lit "- Fix Y") [] [] []);
          EvFetch url body (Json true (lit "{}"));
          EvLog (lit "Wrote brief: ops/briefs/2024-11-03.md");
          EvLog (lit "Telegram sent (if secrets set).")]
       /\ text body
          = execSummary (lit "2024-11-03")
              (lit "https://github.com/OWNER/REPO/blob/main/ops/briefs/2024-11-03.md")
              (lit "- Ship X" ++ nl ++ lit "- Fix Y") [] [].
Proof.
  intros md w. repeat split; try (vm_compute; reflexivity).
  do 2 eexists. split; vm_compute; reflexivity.
Qed.

(* ===================================================================== *)
(** * Further properties of the script *)
(* ===================================================================== *)

(** ** The whole run *)

(** The delivery step, event by event. *)
Lemma deliver_explicit date summary st :
  deliver date summary st
  = (match (if credentialsPresent (world st)
            then deliveryError (telegram (world st)) else None) with
     | Some e => Throw e
     | None => Ok tt
     end,
     Machine (world st)
       (trace st
        ++ if credentialsPresent (world st) then
             EvFetch (requestUrl (world st)) (requestBody (world st) summary)
               (telegram (world st))
             :: match deliveryError (telegram (world st)) with
                | Some e => []
                | None => closingLogs date
                end
           else EvLog skipNotice :: closingLogs date)).
Proof.
  destruct (credentialsPresent (world st)) eqn:Hc.
  - unfold credentialsPresent in Hc. unfold deliver, sendTelegram.
    fold tokenVar chatVar. mstep.
    replace (negb (truthyOpt (env (world st) !! tokenVar))
             || negb (truthyOpt (env (world st) !! chatVar))) with false
      by (rewrite <- negb_andb, Hc; reflexivity).
    mstep. fold (requestUrl (world st)).
    destruct (telegram (world st)) as [| |[|] raw]; mfinish; reflexivity.
  - rewrite deliver_skip by exact Hc. reflexivity.
Qed.

(** In a directory that exists, [findLatestBrief] answers from its
    listing and changes nothing. *)
Lemma findLatestBrief_present dir st :
  present dir (world st) = true ->
  findLatestBrief dir st
  = (Ok (latestDated dir (entries dir (world st))), st).
Proof.
  unfold present. intros H. unfold findLatestBrief, readdirSync. mstep.
  rewrite H. reflexivity.
Qed.

Lemma present_ensured w : present briefDir (ensured w) = true.
Proof.
  unfold ensured, dirsAfter.
  destruct (present briefDir w) eqn:E.
  - exact E.
  - unfold present. cbn [files dirs]. apply orb_true_iff. right.
    apply bool_decide_eq_true. set_solver.
Qed.

(** Past the guard, the whole run: the exit status, the store it leaves
    and its events. *)
Lemma run_past_guard w date priorities :
  pastGuard w date priorities ->
  exists s,
    extracted priorities s
    /\ run w
       = Outcome (exitPastGuard w)
           (Machine (worldAfter w date (reportOf w date s))
              (stepsBefore w
               ++ EvWrite (briefPathOf date) (reportOf w date s)
                  :: deliveryEvents w date (summaryOf w date s))).
Proof.
  intros (Hd & Hp & Hne).
  assert (Hmain : exists s,
    extracted priorities s
    /\ main (Machine w [])
       = deliver date (summaryOf w date s)
           (Machine (worldAfter w date (reportOf w date s))
              (stepsBefore w
               ++ [EvWrite (briefPathOf date) (reportOf w date s)]))).
  { unfold main. mstep. rewrite Hd. mstep.
    rewrite readFileSafe_eq. cbn [world]. rewrite Hp.
    destruct priorities as [|c priorities]; [congruence|].
    cbn [from_option id]. mstep.
    set (md := c :: priorities).
    destruct (extractSection_total md weekLabel) as [tw Htw].
    destruct (extractSection_total md topLabel) as [top Htop].
    destruct (extractSection_total md blockersLabel) as [blk Hblk].
    destruct (extractSection_total md decisionsLabel) as [dec Hdec].
    destruct (extractSection_total md notesLabel) as [nts Hnts].
    exists (Sections top blk dec nts).
    split; [repeat split; assumption|].
    pose proof (present_ensured w) as Hens.
    unfold reportOf, yesterdayRefOf, worldAfter, stepsBefore.
    unfold ensured, dirsAfter, present in *.
    destruct (bool_decide (is_Some (files w !! briefDir))
              || bool_decide (briefDir ∈ dirs w)) eqn:Hex; mstep;
      rewrite Htw, Htop, Hblk, Hdec, Hnts; mstep;
      rewrite findLatestBrief_present by exact Hens; mstep;
      reflexivity. }
  destruct Hmain as (s & Hs & Hmain). exists s.
  split; [exact Hs|]. unfold run. rewrite Hmain, deliver_explicit.
  cbn [world trace].
  change (credentialsPresent (worldAfter w date _))
    with (credentialsPresent w).
  change (telegram (worldAfter w date (reportOf w date s))) with (telegram w).
  change (requestUrl (worldAfter w date (reportOf w date s)))
    with (requestUrl w).
  change (requestBody (worldAfter w date (reportOf w date s)))
    with (requestBody w).
  unfold exitPastGuard, deliveryEvents.
  destruct (credentialsPresent w); [destruct (deliveryError (telegram w))|];
    cbn [world trace]; rewrite <- ?app_assoc; reflexivity.
Qed.

(** Every run is stopped by the guard or goes through to the delivery. *)
Lemma run_cases w :
  (exists e, run w = Outcome 1 (Machine w [EvError e]))
  \/ exists date priorities s,
       pastGuard w date priorities
       /\ extracted priorities s
       /\ run w
          = Outcome (exitPastGuard w)
              (Machine (worldAfter w date (reportOf w date s))
                 (stepsBefore w
                  ++ EvWrite (briefPathOf date) (reportOf w date s)
                     :: deliveryEvents w date (summaryOf w date s))).
Proof.
  destruct (todayISO (clock w)) as [date|] eqn:Hd.
  2:{ left. destruct (run_guard w) as (e & He & _); eauto. }
  destruct (files w !! prioritiesPath) as [[|c priorities]|] eqn:Hp.
  1,3: left; destruct (run_guard w) as (e & He & _); eauto.
  right.
  assert (Hg : pastGuard w date (c :: priorities))
    by (split; [exact Hd|split; [exact Hp|discriminate]]).
  destruct (run_past_guard w date (c :: priorities) Hg) as (s & Hs & Hr).
  exists date, (c :: priorities), s. auto.
Qed.

Lemma stepsBefore_quiet w :
  List.filter isWrite (stepsBefore w) = []
  /\ List.filter isRequest (stepsBefore w) = []
  /\ forall e, EvError e ∉ stepsBefore w.
Proof.
  unfold stepsBefore. destruct (present briefDir w); cbn;
    (split; [reflexivity|]); (split; [reflexivity|]); intros e H.
  - inversion H.
  - apply list_elem_of_singleton in H. discriminate.
Qed.

Lemma briefPath_not_source date : briefPathOf date <> prioritiesPath.
Proof.
  intros E. apply (f_equal (fun p : list N => p !! 4%nat)) in E.
  vm_compute in E. discriminate E.
Qed.





(** X3. Whatever request a run sends, it is addressed to
    [https://api.telegram.org/bot<token>/sendMessage] with the token of
    the environment, and its body holds the chat identifier of the
    environment, the parse mode [Markdown], link previews left enabled,
    and as text the summary of the sections of the source document, with
    the link to the report of the day in the repository [GITHUB_REPO]
    ([OWNER/REPO] when that variable is unset or empty). *)
Theorem request_carries_summary (w : World) (url : str) (body : payload)
    (r : reply) :
  EvFetch url body r ∈ trace (final (run w)) ->
  exists token chat date priorities s,
    env w !! tokenVar = Some token /\ token <> []
    /\ env w !! chatVar = Some chat /\ chat <> []
    /\ pastGuard w date priorities
    /\ extracted priorities s
    /\ url = lit "https://api.telegram.org/bot" ++ token ++ lit "/sendMessage"
    /\ body = {| chat_id := chat;
                 text := execSummary date (briefUrlOf w date)
                           (secTop s) (secBlockers s) (secDecisions s);
                 parse_mode := lit "Markdown";
                 disable_web_page_preview := false |}
    /\ r = telegram w.
Proof.
  intros Hin.
  destruct (run_cases w) as [(e & Hr)|(date & priorities & s & Hg & Hs & Hr)];
    rewrite Hr in Hin; cbn [final trace] in Hin.
  { apply list_elem_of_singleton in Hin. discriminate. }
  apply elem_of_app in Hin as [Hin|Hin].
  { unfold stepsBefore in Hin. destruct (present briefDir w).
    - inversion Hin.
    - apply list_elem_of_singleton in Hin. discriminate. }
  apply elem_of_cons in Hin as [Hin|Hin]; [discriminate|].
  unfold deliveryEvents in Hin.
  destruct (credentialsPresent w) eqn:Hc.
  2:{ unfold closingLogs in Hin.
      repeat (apply elem_of_cons in Hin as [Hin|Hin]; [discriminate|]).
      inversion Hin. }
  apply elem_of_cons in Hin as [Hin|Hin].
  2:{ destruct (deliveryError (telegram w)); unfold closingLogs in Hin;
      repeat (apply elem_of_cons in Hin as [Hin|Hin]; [discriminate|]);
      inversion Hin. }
  injection Hin as -> -> ->.
  unfold credentialsPresent in Hc. apply andb_prop in Hc as [Htok Hchat].
  unfold requestUrl, requestBody.
  destruct (env w !! tokenVar) as [token|]; [|discriminate].
  destruct (env w !! chatVar) as [chat|]; [|discriminate].
  exists token, chat, date, priorities, s. cbn [default from_option id].
  split; [reflexivity|]. split; [destruct token; [discriminate|congruence]|].
  split; [reflexivity|]. split; [destruct chat; [discriminate|congruence]|].
  split; [exact Hg|]. split; [exact Hs|]. auto.
Qed.

Lemma request_carries_summary_witness :
  exists url body,
    EvFetch url body (Json true (lit "{}"))
      ∈ trace (final (run (sampleWorld sampleSecrets (Json true (lit "{}")))))
    /\ url = lit "https://api.telegram.org/bot123:abc/sendMessage"
    /\ chat_id body = lit "42".
Proof.
  assert (Hin : exists url body,
    EvFetch url body (Json true (lit "{}"))
      ∈ trace (final (run (sampleWorld sampleSecrets (Json true (lit "{}")))))).
  { eexists _, _. vm_compute.
    do 2 apply list_elem_of_further. apply list_elem_of_here. }
  destruct Hin as (url & body & Hin). exists url, body.
  split; [exact Hin|].
  destruct (request_carries_summary _ url body _ Hin)
    as (token & chat & date & priorities & s
        & Htok & _ & Hchat & _ & _ & _ & -> & -> & _).
  vm_compute in Htok, Hchat.
  injection Htok as <-. injection Hchat as <-.
  split; vm_compute; reflexivity.
Defined.

(** X4. A run leaves the environment, the clock and the endpoint as they
    were and removes no directory; it does not touch
    [ops/priorities.md], and the only file whose content can differ after
    the run is [ops/briefs/<date>.md] for the date of the day. *)
Theorem run_touches_only_todays_report (w : World) :
  env (world (final (run w))) = env w
  /\ clock (world (final (run w))) = clock w
  /\ telegram (world (final (run w))) = telegram w
  /\ dirs w ⊆ dirs (world (final (run w)))
  /\ files (world (final (run w))) !! prioritiesPath
     = files w !! prioritiesPath
  /\ forall p,
       files (world (final (run w))) !! p <> files w !! p ->
       exists date, todayISO (clock w) = Some date /\ p = briefPathOf date.
Proof.
  destruct (run_cases w)
    as [(e & ->)|(date & priorities & s & (Hd & Hp & Hne) & Hs & ->)];
    cbn [final world worldAfter env clock telegram dirs files].
  { repeat (split; [reflexivity|]). intros p H. congruence. }
  repeat (split; [reflexivity|]).
  split; [unfold dirsAfter; destruct (present briefDir w); set_solver|].
  split; [apply lookup_insert_ne, briefPath_not_source|].
  intros p H. exists date. split; [exact Hd|].
  destruct (decide (briefPathOf date = p)) as [E|E]; [congruence|].
  rewrite lookup_insert_ne in H by exact E. congruence.
Qed.

Lemma run_touches_only_todays_report_witness :
  files (world (final (run (sampleWorld ∅ NetworkError)))) !! prioritiesPath
  = Some sampleSource
  /\ exists date,
       todayISO (clock (sampleWorld ∅ NetworkError)) = Some date
       /\ briefPathOf (lit "2024-11-03") = briefPathOf date.
Proof.
  destruct (run_touches_only_todays_report (sampleWorld ∅ NetworkError))
    as (_ & _ & _ & _ & Hsrc & Hother).
  split; [rewrite Hsrc; vm_compute; reflexivity|].
  apply Hother. vm_compute. discriminate.
Defined.

(** X5. A run writes at most one file and sends at most one request:
    nothing is retried; and a run that sends a request has written its
    file. *)
Theorem one_write_one_request (w : World) :
  length (List.filter isWrite (trace (final (run w)))) <= 1
  /\ length (List.filter isRequest (trace (final (run w)))) <= 1
  /\ (length (List.filter isRequest (trace (final (run w)))) = 1 ->
      length (List.filter isWrite (trace (final (run w)))) = 1).
Proof.
  destruct (run_cases w)
    as [(e & ->)|(date & priorities & s & Hg & Hs & ->)];
    cbn [final trace].
  { cbn. lia. }
  destruct (stepsBefore_quiet w) as (Hw & Hr & _).
  rewrite !List.filter_app, Hw, Hr. cbn [app List.filter isWrite isRequest].
  unfold deliveryEvents, closingLogs.
  destruct (credentialsPresent w); [destruct (deliveryError (telegram w))|];
    cbn; lia.
Qed.

Lemma one_write_one_request_witness :
  length (List.filter isRequest
            (trace (final (run (sampleWorld sampleSecrets NetworkError))))) = 1
  /\ length (List.filter isWrite
               (trace (final (run (sampleWorld sampleSecrets NetworkError)))))
     = 1.
Proof.
  assert (H : length (List.filter isRequest
                (trace (final (run (sampleWorld sampleSecrets NetworkError)))))
              = 1) by (vm_compute; reflexivity).
  split; [exact H|].
  exact (proj2 (proj2 (one_write_one_request
                         (sampleWorld sampleSecrets NetworkError))) H).
Defined.

(** X6. A run that exits with status 0 has passed the guard and written
    the report of the day: the report is in the store at the end, the
    line [Wrote brief: ops/briefs/<date>.md] is logged, no error is
    printed, and when both credentials are set the endpoint has answered
    with a truthy [ok]. *)
Theorem exit_zero_means_report_written (w : World) :
  exitCode (run w) = 0%Z ->
  exists date priorities report,
    pastGuard w date priorities
    /\ isReport date priorities report
    /\ files (world (final (run w))) !! briefPathOf date = Some report
    /\ EvWrite (briefPathOf date) report ∈ trace (final (run w))
    /\ EvLog (lit "Wrote brief: " ++ briefPathOf date)
         ∈ trace (final (run w))
    /\ (forall e, EvError e ∉ trace (final (run w)))
    /\ (credentialsPresent w = true -> exists raw, telegram w = Json true raw).
Proof.
  destruct (run_cases w)
    as [(e & ->)|(date & priorities & s & Hg & Hs & ->)];
    cbn [exitCode final trace world worldAfter files]; [discriminate|].
  intros Hexit. exists date, priorities, (reportOf w date s).
  split; [exact Hg|].
  split.
  { destruct Hs as (H1 & H2 & H3 & H4).
    exists (yesterdayRefOf w), (secTop s), (secBlockers s), (secDecisions s),
      (secNotes s).
    repeat (split; [assumption|]). reflexivity. }
  split; [apply lookup_insert_eq|].
  split; [apply elem_of_app; right; apply list_elem_of_here|].
  destruct (stepsBefore_quiet w) as (_ & _ & Herr).
  unfold exitPastGuard in Hexit. unfold deliveryEvents, closingLogs.
  destruct (credentialsPresent w).
  - destruct (telegram w) as [| |[|] raw]; cbn [deliveryError] in *;
      try discriminate.
    split; [apply elem_of_app; right;
            do 2 apply list_elem_of_further; apply list_elem_of_here|].
    split; [|eauto].
    intros e Hin. apply elem_of_app in Hin as [Hin|Hin]; [exact (Herr e Hin)|].
    repeat (apply elem_of_cons in Hin as [Hin|Hin]; [discriminate|]).
    inversion Hin.
  - split; [apply elem_of_app; right;
            do 2 apply list_elem_of_further; apply list_elem_of_here|].
    split; [|discriminate].
    intros e Hin. apply elem_of_app in Hin as [Hin|Hin]; [exact (Herr e Hin)|].
    repeat (apply elem_of_cons in Hin as [Hin|Hin]; [discriminate|]).
    inversion Hin.
Qed.

Lemma exit_zero_means_report_written_witness :
  exitCode (run (sampleWorld ∅ NetworkError)) = 0%Z
  /\ exists report,
       files (world (final (run (sampleWorld ∅ NetworkError))))
         !! briefPathOf (lit "2024-11-03") = Some report.
Proof.
  assert (H : exitCode (run (sampleWorld ∅ NetworkError)) = 0%Z)
    by (vm_compute; reflexivity).
  split; [exact H|].
  destruct (exit_zero_means_report_written _ H)
    as (date & priorities & report & (Hd & _) & _ & Hf & _).
  vm_compute in Hd. injection Hd as <-. exists report. exact Hf.
Defined.



(** ** Dates and the names of reports *)

Local Open Scope Z_scope.

(** Strings of as many digits compare as the numbers they write. *)
Lemma ltb_padded w : forall a b x y,
  0 <= a -> 0 <= b ->
  ltb (padded w a ++ x) (padded w b ++ y)
  = (a mod 10 ^ Z.of_nat w <? b mod 10 ^ Z.of_nat w)
    || ((a mod 10 ^ Z.of_nat w =? b mod 10 ^ Z.of_nat w) && ltb x y).
Proof.
  induction w as [|w IH]; intros a b x y Ha Hb.
  - cbn [padded app]. change (10 ^ Z.of_nat 0) with 1. rewrite !Z.mod_1_r.
    reflexivity.
  - cbn [padded app ltb]. rewrite IH by assumption.
    rewrite Nat2Z.inj_succ, Z.pow_succ_r by lia.
    rewrite (Z.mul_comm 10).
    assert (HP : 0 < 10 ^ Z.of_nat w) by (apply Z.pow_pos_nonneg; lia).
    rewrite !Z.rem_mul_r by lia.
    unfold digitAt.
    set (P := 10 ^ Z.of_nat w) in *.
    pose proof (Z.mod_pos_bound a P HP) as HA0.
    pose proof (Z.mod_pos_bound b P HP) as HB0.
    pose proof (Z.mod_pos_bound (a / P) 10 ltac:(lia)) as HA1.
    pose proof (Z.mod_pos_bound (b / P) 10 ltac:(lia)) as HB1.
    set (A0 := a mod P) in *. set (B0 := b mod P) in *.
    set (A1 := (a / P) mod 10) in *. set (B1 := (b / P) mod 10) in *.
    clearbody A0 B0 A1 B1 P.
    destruct (ltb x y);
      destruct (N.ltb_spec (48 + Z.to_N A1) (48 + Z.to_N B1)),
        (N.eqb_spec (48 + Z.to_N A1) (48 + Z.to_N B1)),
        (Z.ltb_spec A0 B0), (Z.eqb_spec A0 B0),
        (Z.ltb_spec (A0 + P * A1) (B0 + P * B1)),
        (Z.eqb_spec (A0 + P * A1) (B0 + P * B1));
      cbn [orb andb]; try reflexivity; exfalso; try lia;
      assert (A1 = B1 \/ A1 + 1 <= B1 \/ B1 + 1 <= A1) as [?|[?|?]] by lia;
      subst; try lia; nia.
Qed.

Lemma ltb_isoDate y1 m1 d1 y2 m2 d2 :
  0 <= y1 <= 9999 -> 0 <= m1 <= 99 -> 0 <= d1 <= 99 ->
  0 <= y2 <= 9999 -> 0 <= m2 <= 99 -> 0 <= d2 <= 99 ->
  ltb (isoDate y1 m1 d1) (isoDate y2 m2 d2)
  = (y1 <? y2) || ((y1 =? y2) && ((m1 <? m2) || ((m1 =? m2) && (d1 <? d2)))).
Proof.
  intros. unfold isoDate. change (lit "-") with [45%N].
  rewrite ltb_padded by lia. cbn [app ltb].
  rewrite N.ltb_irrefl, N.eqb_refl. cbn [orb andb].
  rewrite ltb_padded by lia. cbn [app ltb].
  rewrite N.ltb_irrefl, N.eqb_refl. cbn [orb andb].
  rewrite <- (app_nil_r (padded 2 d1)), <- (app_nil_r (padded 2 d2)).
  rewrite ltb_padded by lia. cbn [ltb]. rewrite andb_false_r, orb_false_r.
  change (10 ^ Z.of_nat 4) with 10000. change (10 ^ Z.of_nat 2) with 100.
  rewrite !Z.mod_small by lia. reflexivity.
Qed.

Lemma DayFromYear_mono a b : a <= b -> DayFromYear a <= DayFromYear b.
Proof. intros H. unfold DayFromYear. Z.div_mod_to_equations. lia. Qed.

(** The year, month and day of a later day come later. *)
Lemma civil_order t1 t2 :
  Day t1 < Day t2 ->
  (YearFromTime t1 <? YearFromTime t2)
  || ((YearFromTime t1 =? YearFromTime t2)
      && ((MonthFromTime t1 + 1 <? MonthFromTime t2 + 1)
          || ((MonthFromTime t1 + 1 =? MonthFromTime t2 + 1)
              && (DateFromTime t1 <? DateFromTime t2))))
  = true.
Proof.
  intros Hlt.
  pose proof (YearFromDay_spec (Day t1)) as H1.
  pose proof (YearFromDay_spec (Day t2)) as H2.
  fold (YearFromTime t1) in H1. fold (YearFromTime t2) in H2.
  destruct (Z.ltb_spec (YearFromTime t1) (YearFromTime t2)) as [Hy|Hy];
    [reflexivity|].
  assert (Ey : YearFromTime t1 = YearFromTime t2).
  { destruct (Z.eq_dec (YearFromTime t1) (YearFromTime t2)) as [E|E];
      [exact E|exfalso].
    pose proof (DayFromYear_mono (YearFromTime t2 + 1) (YearFromTime t1)
                  ltac:(lia)).
    lia. }
  rewrite Ey, Z.eqb_refl. cbn [orb andb].
  unfold DateFromTime, MonthFromTime, InLeapYear, DayWithinYear.
  rewrite Ey.
  set (l := if DaysInYear (YearFromTime t2) =? 366 then 1 else 0).
  assert (Hl : l = 0 \/ l = 1) by (unfold l; destruct (_ =? _); auto).
  set (base := DayFromYear (YearFromTime t2)) in *.
  set (a := Day t1 - base). set (b := Day t2 - base).
  assert (Hab : a < b) by (unfold a, b; lia).
  clearbody a b l. clear - Hab Hl.
  repeat match goal with
  | |- context [?u <? Z.pos ?p] => destruct (Z.ltb_spec u (Z.pos p))
  | |- context [?u <? Z.pos ?p + l] => destruct (Z.ltb_spec u (Z.pos p + l))
  end;
  cbn [Z.add Z.ltb Z.eqb Z.compare Pos.add Pos.compare Pos.compare_cont
       Pos.eqb Pos.succ orb andb];
  try reflexivity; try lia;
  apply Z.ltb_lt; lia.
Qed.

(** The year, month and day of an instant depend on its day alone. *)
Lemma civil_same_day t1 t2 :
  Day t1 = Day t2 ->
  YearFromTime t1 = YearFromTime t2
  /\ MonthFromTime t1 = MonthFromTime t2
  /\ DateFromTime t1 = DateFromTime t2.
Proof.
  intros E.
  assert (Ey : YearFromTime t1 = YearFromTime t2)
    by (unfold YearFromTime; rewrite E; reflexivity).
  assert (Em : MonthFromTime t1 = MonthFromTime t2)
    by (unfold MonthFromTime, InLeapYear, DayWithinYear;
        rewrite E, Ey; reflexivity).
  split; [exact Ey|]. split; [exact Em|].
  unfold DateFromTime, InLeapYear, DayWithinYear. rewrite E, Ey, Em.
  reflexivity.
Qed.

(** In the years 0000 to 9999 [todayISO] is the ISO date of the shifted
    instant. *)
Lemma todayISO_isoDate now :
  fourDigitYears now ->
  todayISO now
  = Some (isoDate (YearFromTime (dhakaTime now))
            (MonthFromTime (dhakaTime now) + 1)
            (DateFromTime (dhakaTime now)))
  /\ 0 <= YearFromTime (dhakaTime now) <= 9999
  /\ 1 <= MonthFromTime (dhakaTime now) + 1 <= 12
  /\ 1 <= DateFromTime (dhakaTime now) <= 31.
Proof.
  unfold fourDigitYears. intros Hrange.
  unfold todayISO. fold (dhakaTime now).
  set (t := dhakaTime now) in *.
  destruct (civil_of_time t) as [Hvalid _].
  assert (Hy : 0 <= YearFromTime t <= 9999).
  { apply four_digit_year. unfold Day, msPerDay.
    change (DayFromYear 0) with (-719528).
    change (DayFromYear 10000) with 2932897.
    Z.div_mod_to_equations. lia. }
  split; [|split; [exact Hy|]].
  - unfold newDate.
    destruct (Z.leb_spec (Z.abs t) 8640000000000000); [|lia].
    unfold toISOString, isoYear.
    replace ((0 <=? YearFromTime t) && (YearFromTime t <=? 9999)) with true
      by (symmetry; apply andb_true_intro; split; apply Z.leb_le; lia).
    reflexivity.
  - destruct Hvalid as [Hm Hdd]. split; [exact Hm|].
    unfold monthLength in Hdd.
    destruct (isLeapYear (YearFromTime t));
      destruct (MonthFromTime t + 1)
        as [|[[[|[]|]|[[]|[]|]|]|[[[]|[]|]|[[]|[]|]|]|]|]; lia.
Qed.

Lemma isoDate_isDateString y m dd :
  0 <= y -> 0 <= m -> 0 <= dd -> isDateString (isoDate y m dd) = true.
Proof.
  intros Hy Hm Hd. unfold isoDate. cbn [padded app lit].
  change (lit "-") with [45%N]. cbn [app isDateString].
  rewrite !(proj1 (digitAt_spec _ _ Hy)), !(proj1 (digitAt_spec _ _ Hm)),
    !(proj1 (digitAt_spec _ _ Hd)).
  reflexivity.
Qed.

(** X8. The strings [todayISO] returns are ordered as the days they
    name: for two readings of the clock in the years 0000 to 9999, the
    first string is less than the second, in the order [<] of strings
    that [findLatestBrief] sorts by, exactly when the first day (at
    UTC+6) is before the second, and the strings are equal exactly when
    the days are. *)
Theorem date_strings_order_as_days (a b : Z) :
  fourDigitYears a -> fourDigitYears b ->
  exists sa sb,
    todayISO a = Some sa /\ todayISO b = Some sb
    /\ (ltb sa sb = true <-> Day (dhakaTime a) < Day (dhakaTime b))
    /\ (sa = sb <-> Day (dhakaTime a) = Day (dhakaTime b)).
Proof.
  intros Ha Hb.
  destruct (todayISO_isoDate a Ha) as (Ea & Hya & Hma & Hda).
  destruct (todayISO_isoDate b Hb) as (Eb & Hyb & Hmb & Hdb).
  eexists _, _. split; [exact Ea|]. split; [exact Eb|].
  assert (Hlt : forall t1 t2,
    0 <= YearFromTime t1 <= 9999 -> 1 <= MonthFromTime t1 + 1 <= 12 ->
    1 <= DateFromTime t1 <= 31 ->
    0 <= YearFromTime t2 <= 9999 -> 1 <= MonthFromTime t2 + 1 <= 12 ->
    1 <= DateFromTime t2 <= 31 ->
    Day t1 < Day t2 ->
    ltb (isoDate (YearFromTime t1) (MonthFromTime t1 + 1) (DateFromTime t1))
        (isoDate (YearFromTime t2) (MonthFromTime t2 + 1) (DateFromTime t2))
    = true).
  { intros t1 t2 ? ? ? ? ? ? Hlt. rewrite ltb_isoDate by lia.
    exact (civil_order t1 t2 Hlt). }
  assert (Heq : forall t1 t2, Day t1 = Day t2 ->
    isoDate (YearFromTime t1) (MonthFromTime t1 + 1) (DateFromTime t1)
    = isoDate (YearFromTime t2) (MonthFromTime t2 + 1) (DateFromTime t2)).
  { intros t1 t2 E. destruct (civil_same_day t1 t2 E) as (-> & -> & ->).
    reflexivity. }
  set (ta := dhakaTime a) in *. set (tb := dhakaTime b) in *.
  set (sa := isoDate (YearFromTime ta) _ _).
  set (sb := isoDate (YearFromTime tb) _ _).
  assert (Hab : Day ta < Day tb -> ltb sa sb = true) by (apply Hlt; assumption).
  assert (Hba : Day tb < Day ta -> ltb sb sa = true) by (apply Hlt; assumption).
  assert (Hsame : Day ta = Day tb -> sa = sb) by apply Heq.
  split; split.
  - intros L. destruct (Z.lt_total (Day ta) (Day tb)) as [H|[H|H]];
      [exact H|exfalso..].
    + rewrite (Hsame H), ltb_irrefl in L. discriminate.
    + rewrite (ltb_asym _ _ (Hba H)) in L. discriminate.
  - exact Hab.
  - intros E. destruct (Z.lt_total (Day ta) (Day tb)) as [H|[H|H]];
      [exfalso|exact H|exfalso].
    + specialize (Hab H). rewrite E, ltb_irrefl in Hab. discriminate.
    + specialize (Hba H). rewrite E, ltb_irrefl in Hba. discriminate.
  - exact Hsame.
Qed.

Lemma date_strings_order_as_days_witness :
  fourDigitYears 1730656800000 /\ fourDigitYears 1735668000000
  /\ todayISO 1730656800000 = Some (lit "2024-11-04")
  /\ todayISO 1735668000000 = Some (lit "2025-01-01")
  /\ exists sa sb,
       todayISO 1730656800000 = Some sa /\ todayISO 1735668000000 = Some sb
       /\ (ltb sa sb = true
           <-> Day (dhakaTime 1730656800000) < Day (dhakaTime 1735668000000))
       /\ (sa = sb
           <-> Day (dhakaTime 1730656800000) = Day (dhakaTime 1735668000000)).
Proof.
  assert (Ha : fourDigitYears 1730656800000)
    by (unfold fourDigitYears, dhakaTime; lia).
  assert (Hb : fourDigitYears 1735668000000)
    by (unfold fourDigitYears, dhakaTime; lia).
  split; [exact Ha|]. split; [exact Hb|].
  split; [vm_compute; reflexivity|]. split; [vm_compute; reflexivity|].
  exact (date_strings_order_as_days _ _ Ha Hb).
Defined.

(** X9. The date of [todayISO] changes at 18:00 UTC: for a reading of
    the clock in the years 0000 to 9999, it is the UTC date of that
    instant while the UTC time of day is before 18:00, and the UTC date
    of the instant one day later from 18:00 on. *)
Theorem date_changes_at_1800_utc (now : Z) :
  fourDigitYears now ->
  todayISO now
  = utcDate (if TimeWithinDay now <? 18 * 60 * 60 * 1000
             then now else now + msPerDay).
Proof.
  intros Hrange.
  set (t := if TimeWithinDay now <? 18 * 60 * 60 * 1000
            then now else now + msPerDay).
  assert (Hday : Day (dhakaTime now) = Day t).
  { unfold t, Day, TimeWithinDay, dhakaTime, msPerDay.
    destruct (Z.ltb_spec (now mod 86400000) (18 * 60 * 60 * 1000));
      Z.div_mod_to_equations; lia. }
  assert (Et : dhakaTime (t - 6 * 60 * 60 * 1000) = t)
    by (unfold dhakaTime; lia).
  assert (Ht : fourDigitYears (t - 6 * 60 * 60 * 1000)).
  { unfold fourDigitYears in *. rewrite Et.
    unfold Day, msPerDay in Hday. Z.div_mod_to_equations. lia. }
  destruct (todayISO_isoDate now Hrange) as (E & _).
  destruct (todayISO_isoDate _ Ht) as (E' & _).
  change (todayISO (t - 6 * 60 * 60 * 1000))
    with (utcDate (dhakaTime (t - 6 * 60 * 60 * 1000))) in E'.
  rewrite Et in E'. rewrite E, E'.
  destruct (civil_same_day _ _ Hday) as (-> & -> & ->). reflexivity.
Qed.

Lemma date_changes_at_1800_utc_witness :
  fourDigitYears 1730656799999 /\ fourDigitYears 1730656800000
  /\ todayISO 1730656799999 = Some (lit "2024-11-03")
  /\ todayISO 1730656800000 = Some (lit "2024-11-04")
  /\ todayISO 1730656800000 = utcDate (1730656800000 + msPerDay).
Proof.
  assert (Ha : fourDigitYears 1730656799999)
    by (unfold fourDigitYears, dhakaTime; lia).
  assert (Hb : fourDigitYears 1730656800000)
    by (unfold fourDigitYears, dhakaTime; lia).
  split; [exact Ha|]. split; [exact Hb|].
  split; [vm_compute; reflexivity|]. split; [vm_compute; reflexivity|].
  exact (date_changes_at_1800_utc _ Hb).
Defined.

(** The year of an instant outside the years 0000 to 9999. *)
Lemma year_out_of_range t :
  ~ (-62167219200000 <= t < 253402300800000) ->
  YearFromTime t < 0 \/ 9999 < YearFromTime t.
Proof.
  intros H. pose proof (YearFromDay_spec (Day t)) as Hy.
  fold (YearFromTime t) in Hy. set (y := YearFromTime t) in *.
  destruct (Z.lt_ge_cases t (-62167219200000)) as [Hlo|Hlo].
  - left. destruct (Z.lt_ge_cases y 0) as [|Hy0]; [assumption|exfalso].
    pose proof (DayFromYear_mono 0 y Hy0) as Hm.
    change (DayFromYear 0) with (-719528) in Hm.
    unfold Day, msPerDay in Hy. Z.div_mod_to_equations. lia.
  - right. destruct (Z.lt_ge_cases 9999 y) as [|Hy0]; [assumption|exfalso].
    pose proof (DayFromYear_mono (y + 1) 10000 ltac:(lia)) as Hm.
    change (DayFromYear 10000) with 2932897 in Hm.
    unfold Day, msPerDay in Hy. Z.div_mod_to_equations. lia.
Qed.

Lemma not_dateString_not_found s :
  isDateString s = false -> latestDated briefDir [s ++ lit ".md"] = None.
Proof.
  intros Hs.
  pose proof (latestDated_spec briefDir [s ++ lit ".md"]) as Hl.
  destruct (latestDated briefDir [s ++ lit ".md"]) as [p|]; [|reflexivity].
  destruct Hl as (g & _ & Hin & Hg & _).
  apply list_elem_of_singleton in Hin. subst g.
  unfold isReportName in Hg. rewrite endsWith_app, stem_app, Hs in Hg.
  discriminate.
Qed.

(** X10. Beyond the years 0000 to 9999 the result of [todayISO] is not a
    date string: when the shifted instant is a valid time value outside
    those years, [toISOString] writes the year with a sign and six digits,
    so the ten characters [todayISO] keeps begin with [+] or [-] and stop
    in the month; a report named after them is not one [findLatestBrief]
    recognises. *)
Theorem no_date_string_beyond_four_digit_years (now : Z) :
  ~ fourDigitYears now ->
  Z.abs (dhakaTime now) <= 8640000000000000 ->
  exists s,
    todayISO now = Some s
    /\ length s = 10%nat
    /\ (head s = Some 43%N \/ head s = Some 45%N)
    /\ isDateString s = false
    /\ latestDated briefDir [s ++ lit ".md"] = None.
Proof.
  unfold fourDigitYears. intros Hout Hclip.
  assert (Hs : exists s,
    todayISO now = Some s /\ length s = 10%nat
    /\ (head s = Some 43%N \/ head s = Some 45%N)
    /\ isDateString s = false).
  { destruct (year_out_of_range _ Hout) as [Hy|Hy].
    all: unfold todayISO; fold (dhakaTime now); set (t := dhakaTime now) in *.
    all: unfold newDate;
      destruct (Z.leb_spec (Z.abs t) 8640000000000000); [|lia].
    all: unfold toISOString, isoYear.
    all: replace ((0 <=? YearFromTime t) && (YearFromTime t <=? 9999))
        with false
        by (symmetry; apply andb_false_iff;
            first [left; apply Z.leb_gt; lia | right; apply Z.leb_gt; lia]).
    - replace (YearFromTime t <? 0) with true
        by (symmetry; apply Z.ltb_lt; lia).
      eexists. split; [reflexivity|]. change (lit "-") with [45%N].
      cbn [padded app fmap option_fmap option_map sliceTo take].
      split; [reflexivity|]. split; [right; reflexivity|reflexivity].
    - replace (YearFromTime t <? 0) with false
        by (symmetry; apply Z.ltb_ge; lia).
      eexists. split; [reflexivity|].
      change (lit "+") with [43%N]. change (lit "-") with [45%N].
      cbn [padded app fmap option_fmap option_map sliceTo take].
      split; [reflexivity|]. split; [left; reflexivity|reflexivity]. }
  destruct Hs as (s & E & Hl & Hh & Hd). exists s.
  repeat (split; [assumption|]). apply not_dateString_not_found, Hd.
Qed.

Lemma no_date_string_beyond_four_digit_years_witness :
  ~ fourDigitYears 253402300800000
  /\ Z.abs (dhakaTime 253402300800000) <= 8640000000000000
  /\ todayISO 253402300800000 = Some (lit "+010000-01")
  /\ exists s,
       todayISO 253402300800000 = Some s
       /\ length s = 10%nat
       /\ (head s = Some 43%N \/ head s = Some 45%N)
       /\ isDateString s = false
       /\ latestDated briefDir [s ++ lit ".md"] = None.
Proof.
  assert (Hout : ~ fourDigitYears 253402300800000)
    by (unfold fourDigitYears, dhakaTime; lia).
  assert (Hclip : Z.abs (dhakaTime 253402300800000) <= 8640000000000000)
    by (unfold dhakaTime; lia).
  split; [exact Hout|]. split; [exact Hclip|].
  split; [vm_compute; reflexivity|].
  exact (no_date_string_beyond_four_digit_years _ Hout Hclip).
Defined.

(** X11. When the shifted reading of the clock is beyond the range of
    [Date], 8.64e15 milliseconds either side of the epoch, [toISOString]
    throws a RangeError: [todayISO] has no result and the run exits with
    status 1, the error printed by the handler, before anything is read,
    made, written or sent. *)
Theorem clock_beyond_date_range_is_fatal (w : World) :
  8640000000000000 < Z.abs (dhakaTime (clock w)) ->
  todayISO (clock w) = None
  /\ run w = Outcome 1 (Machine w [EvError RangeError]).
Proof.
  intros H.
  assert (E : todayISO (clock w) = None).
  { unfold todayISO. fold (dhakaTime (clock w)). unfold newDate.
    destruct (Z.leb_spec (Z.abs (dhakaTime (clock w))) 8640000000000000);
      [lia|reflexivity]. }
  split; [exact E|]. unfold run, main. mstep. rewrite E. mstep. reflexivity.
Qed.

Lemma clock_beyond_date_range_is_fatal_witness :
  8640000000000000 < Z.abs (dhakaTime 8640000000000000)
  /\ exitCode (run {| files := {[ prioritiesPath := sampleSource ]};
                      dirs := ∅; env := ∅; clock := 8640000000000000;
                      telegram := NetworkError |}) = 1.
Proof.
  assert (H : 8640000000000000 < Z.abs (dhakaTime 8640000000000000))
    by (unfold dhakaTime; lia).
  split; [exact H|].
  rewrite (proj2 (clock_beyond_date_range_is_fatal
                    {| files := {[ prioritiesPath := sampleSource ]};
                       dirs := ∅; env := ∅; clock := 8640000000000000;
                       telegram := NetworkError |} H)).
  reflexivity.
Defined.

Local Close Scope Z_scope.

Lemma lastSegment_join dir g :
  existsb (N.eqb 47) g = false -> lastSegment (path_join dir g) = g.
Proof.
  intros Hg. unfold path_join. change (lit "/") with [47%N].
  change ([47%N] ++ g) with (47%N :: g).
  induction dir as [|c dir IH]; cbn [app lastSegment].
  - rewrite Hg. reflexivity.
  - replace (existsb (N.eqb 47) (dir ++ 47%N :: g)) with true; [exact IH|].
    symmetry. rewrite existsb_app. cbn. apply orb_true_r.
Qed.

Lemma dateString_no_slash d :
  isDateString d = true -> existsb (N.eqb 47) d = false.
Proof.
  intros H. apply isDateString_chars in H.
  induction H as [|c d Hc _ IH]; [reflexivity|].
  cbn [existsb]. rewrite IH, orb_false_r.
  unfold isDateChar, isDigit in Hc.
  destruct (N.eqb_spec 47 c) as [<-|]; [discriminate|reflexivity].
Qed.

Lemma eqb_length a : forall b, eqb a b = true -> length a = length b.
Proof.
  induction a as [|x a IH]; intros [|y b]; cbn; try discriminate; auto.
  intros H. apply andb_prop in H as [_ H]. rewrite (IH b H). reflexivity.
Qed.

(** [path.basename(path.join(dir, d + ".md"), ".md")] is [d]. *)
Lemma basename_of_report dir d :
  isDateString d = true ->
  path_basename (path_join dir (d ++ lit ".md")) (lit ".md") = d.
Proof.
  intros Hd. unfold path_basename.
  rewrite lastSegment_join.
  2:{ rewrite existsb_app, (dateString_no_slash d Hd). reflexivity. }
  rewrite endsWith_app.
  replace (eqb (d ++ lit ".md") (lit ".md")) with false.
  2:{ destruct (eqb _ _) eqn:E; [exfalso|reflexivity].
      apply eqb_length in E. rewrite length_app in E.
      destruct d; [discriminate|]. cbn in E. lia. }
  cbn [andb negb]. rewrite length_app.
  replace (length d + length (lit ".md") - length (lit ".md"))
    with (length d) by lia.
  apply take_app_length.
Qed.

Lemma reportName_inv g :
  isReportName g = true ->
  g = stem g ++ lit ".md" /\ isDateString (stem g) = true.
Proof.
  unfold isReportName. intros H. apply andb_prop in H as [He Hd].
  destruct (endsWith_inv _ _ He) as [pre ->].
  rewrite stem_app in *. auto.
Qed.

(** X12. When [findLatestBrief] answers with a path, the reference
    [main] derives from it with [path.basename(_, ".md")] is a date
    string YYYY-MM-DD, and the answer is the path, in the directory, of
    the listed name made of that date and [.md]. *)
Theorem previous_reference_is_a_date (dir : str) (names : list str) (p : str) :
  latestDated dir names = Some p ->
  isDateString (path_basename p (lit ".md")) = true
  /\ path_basename p (lit ".md") ++ lit ".md" ∈ names
  /\ p = path_join dir (path_basename p (lit ".md") ++ lit ".md").
Proof.
  intros H. pose proof (latestDated_spec dir names) as Hs. rewrite H in Hs.
  destruct Hs as (g & -> & Hin & Hname & _).
  destruct (reportName_inv g Hname) as [Hg Hd].
  assert (Hb : path_basename (path_join dir g) (lit ".md") = stem g)
    by (rewrite Hg at 1; apply basename_of_report, Hd).
  rewrite Hb, <- Hg. auto.
Qed.

Lemma previous_reference_is_a_date_witness :
  latestDated briefDir exampleNames = Some (briefPathOf (lit "2024-02-15"))
  /\ isDateString
       (path_basename (briefPathOf (lit "2024-02-15")) (lit ".md")) = true.
Proof.
  assert (H : latestDated briefDir exampleNames
              = Some (briefPathOf (lit "2024-02-15")))
    by (vm_compute; reflexivity).
  split; [exact H|].
  apply (previous_reference_is_a_date briefDir exampleNames _ H).
Defined.

(** X13. The file a run writes is one a later run recognises: for a
    reading of the clock in the years 0000 to 9999 the date of
    [todayISO] is a date string, [findLatestBrief] on a listing that holds
    [<date>.md] alone answers with the path the report was written to,
    and the reference read back from that path is the date. *)
Theorem todays_report_is_found_later (now : Z) :
  fourDigitYears now ->
  exists date,
    todayISO now = Some date
    /\ isDateString date = true
    /\ latestDated briefDir [date ++ lit ".md"] = Some (briefPathOf date)
    /\ path_basename (briefPathOf date) (lit ".md") = date.
Proof.
  intros Hrange.
  destruct (todayISO_isoDate now Hrange) as (E & Hy & Hm & Hd).
  eexists. split; [exact E|].
  set (date := isoDate _ _ _).
  assert (Hds : isDateString date = true)
    by (apply isoDate_isDateString; lia).
  split; [exact Hds|]. split; [|apply basename_of_report, Hds].
  pose proof (latestDated_spec briefDir [date ++ lit ".md"]) as Hs.
  destruct (latestDated briefDir [date ++ lit ".md"]) as [p|].
  - destruct Hs as (g & -> & Hin & _).
    apply list_elem_of_singleton in Hin. subst g. reflexivity.
  - specialize (Hs (date ++ lit ".md") ltac:(apply list_elem_of_here)).
    unfold isReportName in Hs. rewrite endsWith_app, stem_app, Hds in Hs.
    discriminate.
Qed.

Lemma todays_report_is_found_later_witness :
  fourDigitYears 1730656800000
  /\ exists date,
       todayISO 1730656800000 = Some date
       /\ isDateString date = true
       /\ latestDated briefDir [date ++ lit ".md"] = Some (briefPathOf date)
       /\ path_basename (briefPathOf date) (lit ".md") = date.
Proof.
  assert (H : fourDigitYears 1730656800000)
    by (unfold fourDigitYears, dhakaTime; lia).
  split; [exact H|]. exact (todays_report_is_found_later _ H).
Defined.

Lemma childName_report d :
  isDateString d = true ->
  childName briefDir (briefPathOf d) = Some (d ++ lit ".md").
Proof.
  intros Hd. unfold childName, briefPathOf, path_join.
  rewrite (app_assoc briefDir), startsWith_app.
  rewrite <- (length_app briefDir (lit "/")) at 1.
  change (length (briefDir ++ lit "/")) with (length briefDir + 1).
  replace (drop (length briefDir + 1) ((briefDir ++ lit "/") ++ d ++ lit ".md"))
    with (d ++ lit ".md")
    by (symmetry; apply (drop_app_length (briefDir ++ lit "/"))).
  rewrite existsb_app, (dateString_no_slash d Hd).
  destruct d; [discriminate|]. reflexivity.
Qed.

Lemma listed_report w d :
  isDateString d = true ->
  is_Some (files w !! briefPathOf d) ->
  d ++ lit ".md" ∈ entries briefDir (ensured w).
Proof.
  intros Hd [content Hc]. unfold entries. cbn [ensured files dirs].
  apply list_elem_of_omap. exists (briefPathOf d).
  split; [|apply childName_report, Hd].
  apply elem_of_app. left. apply list_elem_of_fmap.
  exists (briefPathOf d, content). split; [reflexivity|].
  apply elem_of_map_to_list. exact Hc.
Qed.

(** X14. On a second run of the day the directory is read before the
    report is written again, so the report of the first run is among the
    candidates: when [ops/briefs/<date>.md] is already there for the date
    of the day, the report that replaces it names as previous brief a
    date that is not before the day itself, today's or a later one. *)
Theorem rerun_references_today_or_later (w : World) (date priorities : str) :
  pastGuard w date priorities ->
  isDateString date = true ->
  is_Some (files w !! briefPathOf date) ->
  exists yesterdayRef s,
    extracted priorities s
    /\ files (world (final (run w))) !! briefPathOf date
       = Some (managerReport date yesterdayRef
                 (secTop s) (secBlockers s) (secDecisions s) (secNotes s))
    /\ isDateString yesterdayRef = true
    /\ ltb yesterdayRef date = false.
Proof.
  intros Hg Hds Hthere.
  destruct (run_past_guard w date priorities Hg) as (s & Hs & ->).
  exists (yesterdayRefOf w), s. split; [exact Hs|].
  split; [apply lookup_insert_eq|].
  pose proof (listed_report w date Hds Hthere) as Hin.
  unfold yesterdayRefOf.
  pose proof (latestDated_spec briefDir (entries briefDir (ensured w))) as Hl.
  destruct (latestDated briefDir (entries briefDir (ensured w))) as [p|].
  - destruct Hl as (g & -> & _ & Hg' & Hmax).
    destruct (reportName_inv g Hg') as [Eg Hdg].
    assert (Hb : path_basename (path_join briefDir g) (lit ".md") = stem g)
      by (rewrite Eg at 1; apply basename_of_report, Hdg).
    rewrite Hb. split; [exact Hdg|].
    rewrite <- (stem_app date). apply Hmax; [exact Hin|].
    unfold isReportName. rewrite endsWith_app, stem_app, Hds. reflexivity.
  - specialize (Hl _ Hin). unfold isReportName in Hl.
    rewrite endsWith_app, stem_app, Hds in Hl. discriminate.
Qed.

Lemma rerun_references_today_or_later_witness :
  pastGuard rerunWorld (lit "2024-11-03") sampleSource
  /\ yesterdayRefOf rerunWorld = lit "2024-11-03"
  /\ exists yesterdayRef s,
       extracted sampleSource s
       /\ files (world (final (run rerunWorld))) !! briefPathOf (lit "2024-11-03")
          = Some (managerReport (lit "2024-11-03") yesterdayRef
                    (secTop s) (secBlockers s) (secDecisions s) (secNotes s))
       /\ isDateString yesterdayRef = true
       /\ ltb yesterdayRef (lit "2024-11-03") = false.
Proof.
  assert (H : pastGuard rerunWorld (lit "2024-11-03") sampleSource).
  { split; [vm_compute; reflexivity|].
    split; [vm_compute; reflexivity|discriminate]. }
  split; [exact H|]. split; [vm_compute; reflexivity|].
  apply (rerun_references_today_or_later _ _ _ H); [reflexivity|].
  vm_compute. eauto.
Defined.

(** ** More on the sections of the source document *)

Lemma trimStart_split s : exists a, s = a ++ trimStart s /\ allSpace a.
Proof.
  induction s as [|c s (a & E & Ha)].
  - exists []. split; [reflexivity|constructor].
  - cbn [trimStart]. destruct (isSpace c) eqn:Hc.
    + exists (c :: a). split; [cbn; rewrite <- E; reflexivity|].
      constructor; assumption.
    + exists []. split; [reflexivity|constructor].
Qed.

Lemma trimStart_head s c : head (trimStart s) = Some c -> isSpace c = false.
Proof.
  induction s as [|x s IH]; cbn [trimStart]; [discriminate|].
  destruct (isSpace x) eqn:Hx; [exact IH|].
  cbn. intros [= <-]. exact Hx.
Qed.

Lemma trimEnd_split s : exists b, s = trimEnd s ++ b /\ allSpace b.
Proof.
  unfold trimEnd. destruct (trimStart_split (rev s)) as (a & E & Ha).
  exists (rev a). split.
  - rewrite <- rev_app_distr, <- E, rev_involutive. reflexivity.
  - apply Forall_rev. exact Ha.
Qed.

Lemma last_rev {A} (l : list A) : last (rev l) = head l.
Proof. destruct l as [|x l]; [reflexivity|]. cbn [rev]. apply last_snoc. Qed.

Lemma trim_substring s : substring (trim s) s.
Proof.
  unfold trim. destruct (trimStart_split s) as (a & Ea & _).
  destruct (trimEnd_split (trimStart s)) as (b & Eb & _).
  exists a, b. rewrite <- Eb. exact Ea.
Qed.

Lemma trim_trimmed s : trimmed (trim s).
Proof.
  unfold trim. split; intros c Hc.
  - destruct (trimEnd_split (trimStart s)) as (b & Eb & _).
    apply (trimStart_head s c). rewrite Eb.
    destruct (trimEnd (trimStart s)); [discriminate|exact Hc].
  - unfold trimEnd in Hc. rewrite last_rev in Hc.
    exact (trimStart_head _ c Hc).
Qed.

Lemma substring_trans x y z : substring x y -> substring y z -> substring x z.
Proof.
  intros (a & b & ->) (a' & b' & ->). exists (a' ++ a), (b ++ b').
  rewrite <- !app_assoc. reflexivity.
Qed.

(** X15. For every document and every label, [extractSection] returns a
    string, without throwing; the string is a part of the document, cut
    out of it with nothing added or changed, and it neither begins nor
    ends with whitespace. *)
Theorem section_is_trimmed_part_of_document (md label : str) :
  exists x,
    extractSection md label = Some x /\ substring x md /\ trimmed x.
Proof.
  unfold extractSection. rewrite newRegExp_heading. cbn [mbind option_bind].
  eexists. split; [reflexivity|].
  destruct (exec _ md) as [m|].
  2:{ split; [exists [], md; reflexivity|]. split; discriminate. }
  split; [|apply trim_trimmed].
  eapply substring_trans; [apply trim_substring|].
  unfold sliceFrom, sliceTo.
  set (start := index m + matchLength m).
  destruct (search nextHeading (drop start md)) as [n|].
  - exists (take start md), (drop n (drop start md)).
    rewrite take_drop, take_drop. reflexivity.
  - exists (take start md), []. rewrite app_nil_r, take_drop. reflexivity.
Qed.

Lemma section_is_trimmed_part_of_document_witness :
  exists x,
    extractSection sampleSource notesLabel = Some x
    /\ substring x sampleSource /\ head x = Some 114%N.
Proof.
  destruct (section_is_trimmed_part_of_document sampleSource notesLabel)
    as (x & E & Hsub & _).
  exists x. split; [exact E|]. split; [exact Hsub|].
  vm_compute in E. injection E as <-. reflexivity.
Defined.

(** X16. A document in which the character [#] does not occur has no
    section: [extractSection] returns the empty string for every
    label. *)
Theorem no_marker_no_section (md label : str) :
  existsb (N.eqb 35) md = false -> extractSection md label = Some [].
Proof.
  intros Hno.
  destruct (extractSection_spec md label)
    as [[E _]|(pre & w & after & [(Hmd & _) _] & _)]; [exact E|exfalso].
  rewrite Hmd, existsb_app in Hno. cbn in Hno.
  rewrite orb_true_r in Hno. discriminate.
Qed.

Lemma no_marker_no_section_witness :
  existsb (N.eqb 35) (lit "Notes" ++ nl ++ lit "remember") = false
  /\ extractSection (lit "Notes" ++ nl ++ lit "remember") notesLabel = Some [].
Proof.
  assert (H : existsb (N.eqb 35) (lit "Notes" ++ nl ++ lit "remember") = false)
    by reflexivity.
  split; [exact H|]. exact (no_marker_no_section _ notesLabel H).
Defined.

(** X17. Whatever the label holds, parentheses, slashes and the other
    characters that mean something in a pattern included, the source
    string [extractSection] builds is accepted by [new RegExp], and the
    pattern it denotes has, between [^##\s+] and [\s*$], the characters of
    the label one by one: that part matches at a position exactly when the
    text there is the label, letter for letter. *)
Theorem label_is_matched_literally (label : str) :
  newRegExp_m (headingSource label)
  = Some (RegExp ([Bol; One (CChar 35%N); One (CChar 35%N); Plus CSpace]
                  ++ literals label ++ [Star CSpace; Eol]) true)
  /\ forall m prev s r,
       matchFrom m (literals label) prev s = Some r <-> s = label ++ r.
Proof.
  split; [apply newRegExp_heading|].
  intros m prev s r. split.
  - intros H. rewrite <- (app_nil_r (literals label)) in H.
    destruct (matchFrom_literals_sound m label [] s prev r H)
      as (s2 & p' & -> & Hr).
    cbn in Hr. injection Hr as ->. reflexivity.
  - intros ->. rewrite <- (app_nil_r (literals label)).
    rewrite matchFrom_literals_complete; [reflexivity|].
    intros p1 p2 s. reflexivity.
Qed.

Lemma label_is_matched_literally_witness :
  matchFrom true (literals weekLabel) None (weekLabel ++ nl) = Some nl
  /\ matchFrom true (literals weekLabel) None
       (lit "This Week Outcomes measurable") = None.
Proof.
  split; [|vm_compute; reflexivity].
  apply (label_is_matched_literally weekLabel). reflexivity.
Defined.

(** X18. What [extractSection] returns, on every document: the empty
    string when the heading occurs nowhere; otherwise the text that
    follows the first occurrence of the heading, up to the next line that
    begins with [##] and whitespace, or to the end of the document,
    trimmed.  An occurrence is [##] at the start of a line, whitespace,
    the label, and then only whitespace up to the end of a line. *)
Theorem section_follows_first_occurrence (md label : str) :
  (extractSection md label = Some []
   /\ forall pre w after, ~ HeadingAt md label pre w after)
  \/ exists pre w after,
       FirstHeadingAt md label pre w after
       /\ extractSection md label
          = Some (trim (untilNextHeading false after)).
Proof. exact (extractSection_spec md label). Qed.

Lemma section_follows_first_occurrence_witness :
  exists pre w after,
    FirstHeadingAt sampleSource notesLabel pre w after
    /\ trim (untilNextHeading false after) = lit "remember".
Proof.
  destruct (section_follows_first_occurrence sampleSource notesLabel)
    as [[E _]|(pre & w & after & H & E)].
  - vm_compute in E. discriminate E.
  - exists pre, w, after. split; [exact H|].
    assert (E' : extractSection sampleSource notesLabel
                 = Some (lit "remember")) by (vm_compute; reflexivity).
    rewrite E' in E. injection E as <-. reflexivity.
Defined.

Lemma markersOnOneLine_app pre s :
  markersOnOneLine (pre ++ s) = true -> markersOnOneLine s = true.
Proof.
  induction pre as [|c pre IH]; [auto|]. cbn [app markersOnOneLine].
  intros H. apply andb_prop in H as [_ H]. exact (IH H).
Qed.

Lemma forallb_take {A} (f : A -> bool) (l : list A) k n :
  k <= n -> forallb f (take n l) = true -> forallb f (take k l) = true.
Proof.
  revert l n. induction k as [|k IH]; intros l n Hle H;
    [destruct l; reflexivity|].
  destruct l as [|x l]; [reflexivity|].
  destruct n as [|n]; [lia|]. cbn in *.
  apply andb_prop in H as [Hx H]. rewrite Hx. exact (IH l n ltac:(lia) H).
Qed.

Lemma markers_oneLine md label pre w after :
  markersOnOneLine md = true -> HeadingAt md label pre w after -> oneLine w.
Proof.
  intros Hm (Hmd & _ & Hne & Hw & _). subst md.
  apply markersOnOneLine_app in Hm.
  cbn [app markersOnOneLine startsWith] in Hm.
  rewrite !N.eqb_refl in Hm. cbn [andb drop] in Hm.
  apply andb_prop in Hm as [Hm _].
  apply (forallb_take _ _ (length w)) in Hm;
    [|apply leadingSpaces_app, Hw].
  rewrite drop_0, take_app_length in Hm.
  unfold oneLine. apply Forall_forall. intros c Hc.
  rewrite List.forallb_forall in Hm.
  apply negb_true_iff, Hm, list_elem_of_In, Hc.
Qed.

(** X19. In a document where no [##] ends its line (the whitespace after
    each [##] holds no line break), and for a label without line break,
    [extractSection] returns what a reading line by line gives: the text
    between the first heading line of the label and the next line that
    begins with [##] and whitespace, trimmed, and the empty string when
    the document has no heading line for the label. *)
Theorem section_by_lines_when_markers_keep_their_line (md label : str) :
  oneLine label ->
  markersOnOneLine md = true ->
  extractSection md label = Some (default [] (sectionByLines md label)).
Proof.
  intros Hl Hm. apply extractSection_by_lines; [exact Hl|].
  intros pre w after. apply markers_oneLine. exact Hm.
Qed.

Lemma section_by_lines_when_markers_keep_their_line_witness :
  oneLine notesLabel
  /\ markersOnOneLine sampleSource = true
  /\ sectionByLines sampleSource notesLabel = Some (lit "remember")
  /\ extractSection sampleSource notesLabel = Some (lit "remember").
Proof.
  assert (Hl : oneLine notesLabel).
  { vm_compute. repeat (apply List.Forall_cons; [reflexivity|]).
    apply List.Forall_nil. }
  assert (Hm : markersOnOneLine sampleSource = true)
    by (vm_compute; reflexivity).
  split; [exact Hl|]. split; [exact Hm|].
  split; [vm_compute; reflexivity|].
  rewrite (section_by_lines_when_markers_keep_their_line _ _ Hl Hm).
  vm_compute. reflexivity.
Defined.

(** ** Short sections in the summary *)



